(** * gamex-backend: the webhook, game catalogue and user lookup handlers

    A shallow embedding of [main.py].  The three handlers are functions in a
    state-and-exception monad over the process's outside world (the [users]
    table and the file system); the libraries the handlers call (svix's
    [Webhook.verify], [json.loads]) are parameters of the handlers. *)

From Stdlib Require Import ZArith Ascii String.
From stdpp Require Import base option list strings.

Local Open Scope string_scope.
Local Open Scope list_scope.
Set Warnings "-register-all,-clear-no-such-hyp".

(** ** Python values and exceptions *)

Module Py.

(** What [json.loads] produces.  A [dict] keeps its keys in insertion order;
    numbers are never inspected by the handlers, a float is kept as its
    literal. *)
Inductive json : Type :=
| JNull
| JBool (b : bool)
| JInt (n : Z)
| JFloat (lit : string)
| JStr (s : string)
| JArr (items : list json)
| JObj (members : list (string * json)).

Abbreviation dict := (list (string * json)).

(** The exceptions that can leave a handler. *)
Inductive exn : Type :=
| AttributeError        (* [.get] on a value that is not a dict *)
| TypeError             (* subscript of a value that has none *)
| IndexError
| KeyError
| JSONDecodeError
| IsADirectoryError
| FileNotFoundError
| OSError               (* a system call refused for another reason *)
| UnicodeDecodeError
| WebhookVerificationError
| IntegrityError        (* the database refuses a constraint violation *)
| DBAPIError            (* the driver refuses a parameter *)
| OtherError (name : string)
| HTTPException (status_code : nat) (detail : string).

Inductive result (A : Type) : Type :=
| Ok (a : A)
| Raise (e : exn).
Arguments Ok {A} a.
Arguments Raise {A} e.

(** [d.get(k)]: the first binding of [k]. *)
Fixpoint dict_get (k : string) (d : dict) : option json :=
  match d with
  | [] => None
  | (k', v) :: d' => if String.eqb k k' then Some v else dict_get k d'
  end.

(** [d[k] = v]: an existing key keeps its place, a new one goes last. *)
Fixpoint dict_set (k : string) (v : json) (d : dict) : dict :=
  match d with
  | [] => [(k, v)]
  | (k', v') :: d' =>
      if String.eqb k k' then (k', v) :: d' else (k', v') :: dict_set k v d'
  end.

(** [d.update(other)] for a dict [other]: its items are assigned in order. *)
Definition dict_update (d other : dict) : dict :=
  fold_left (fun acc kv => dict_set kv.1 kv.2 acc) other d.

(** [x.get(k, default)]; only a dict has the method. *)
Definition py_get (x : json) (k : string) (dflt : json) : result json :=
  match x with
  | JObj d => Ok (default dflt (dict_get k d))
  | _ => Raise AttributeError
  end.

(** [x[0]]. *)
Definition py_item0 (x : json) : result json :=
  match x with
  | JArr (y :: _) => Ok y
  | JArr [] => Raise IndexError
  | JStr (String c _) => Ok (JStr (String c EmptyString))
  | JStr EmptyString => Raise IndexError
  | JObj _ => Raise KeyError
  | _ => Raise TypeError
  end.

(** [x[k]] for a string [k]. *)
Definition py_item (x : json) (k : string) : result json :=
  match x with
  | JObj d => match dict_get k d with Some v => Ok v | None => Raise KeyError end
  | _ => Raise TypeError
  end.

(** [x in ["user.created", "user.updated"]]. *)
Definition is_user_event (x : json) : bool :=
  match x with
  | JStr s => String.eqb s "user.created" || String.eqb s "user.updated"
  | _ => false
  end.

(** The status FastAPI answers with: 200 for a returned value (one that the
    JSON encoder accepts: every value but a float that is not finite), the
    status of an [HTTPException], 500 for any other exception. *)
Definition status_of {A} (r : result A) : nat :=
  match r with
  | Ok _ => 200
  | Raise (HTTPException s _) => s
  | Raise _ => 500
  end.

End Py.
Export Py.

(** ** The file system under the working directory *)

Module Fs.

(** A regular file is a [File] with its text when its bytes decode in the
    encoding that [open] uses for text mode, and a [Binary] when they do
    not.  There are no symbolic links and no permissions: every directory
    can be searched and every file read. *)
Inductive node : Type :=
| File (text : string)
| Dir (entries : list (string * node))
| Binary (content : string).

(** The entry called [name] of a directory listing. *)
Fixpoint entry (name : string) (es : list (string * node)) : option node :=
  match es with
  | [] => None
  | (n, x) :: es' => if String.eqb name n then Some x else entry name es'
  end.

(** The whole tree and the process's working directory in it. *)
Record filesys : Type := { root : node; cwd : list string }.

(** [pathlib.Path(s).parts] for a relative [s]: split at [/], with empty
    parts and [.] dropped ([..] is kept). *)
Fixpoint split_slash (s cur : string) : list string :=
  match s with
  | EmptyString => [cur]
  | String c s' =>
      if Ascii.eqb c "/"%char then cur :: split_slash s' EmptyString
      else split_slash s' (cur +:+ String c EmptyString)
  end.

Definition path_parts (s : string) : list string :=
  List.filter (fun p => negb (String.eqb p EmptyString || String.eqb p "."))
    (split_slash s EmptyString).

(** Path resolution as the kernel does it, without symbolic links: [trail]
    is the directory reached so far followed by its ancestors; [..] at the
    root stays there; a step through something that is not a directory
    fails. *)
Fixpoint walk (trail : list node) (parts : list string) : option node :=
  match parts with
  | [] => head trail
  | p :: ps =>
      match trail with
      | Dir es :: up =>
          if String.eqb p ".." then
            walk (match up with [] => trail | _ => up end) ps
          else
            match entry p es with
            | Some n => walk (n :: trail) ps
            | None => None
            end
      | _ => None
      end
  end.

Definition resolve (fs : filesys) (parts : list string) : option node :=
  walk [root fs] (cwd fs ++ parts).

(** [Path.rglob(name)] from directory [n], in the order of pathlib's
    recursive selector: the match in a directory itself, then its
    subdirectories one after the other in listing order, each in full.
    The nodes that the yielded paths name are returned. *)
Fixpoint rglob (name : string) (n : node) : list node :=
  match n with
  | File _ | Binary _ => []
  | Dir es =>
      option_list (entry name es) ++
      (fix subdirs (es : list (string * node)) : list node :=
         match es with
         | [] => []
         | (_, c) :: es' => rglob name c ++ subdirs es'
         end) es
  end.

(** [Path.glob("*/" + name)] from directory [n]: the match in each immediate
    subdirectory, in listing order. *)
Definition glob_children (name : string) (n : node) : list node :=
  match n with
  | File _ | Binary _ => []
  | Dir es =>
      flat_map (fun e => match e.2 with
                         | Dir sub => option_list (entry name sub)
                         | File _ | Binary _ => []
                         end) es
  end.

(** The directories that path resolution has entered after [parts], the
    innermost first: [walk] with its whole trail as the result. *)
Fixpoint trail_after (trail : list node) (parts : list string) : option (list node) :=
  match parts with
  | [] => Some trail
  | p :: ps =>
      match trail with
      | Dir es :: up =>
          if String.eqb p ".." then
            trail_after (match up with [] => trail | _ => up end) ps
          else
            match entry p es with
            | Some n => trail_after (n :: trail) ps
            | None => None
            end
      | _ => None
      end
  end.

(** The limits of [limits.h] on Linux: the bytes of one name, and of a whole
    path with its terminator. *)
Definition NAME_MAX : nat := 255.
Definition PATH_MAX : nat := 4096.

(** The length of [str(Path)]: the parts and the [/] between them. *)
Fixpoint joined_length (parts : list string) : nat :=
  match parts with
  | [] => 0
  | [p] => String.length p
  | p :: ps => String.length p + 1 + joined_length ps
  end.

(** The look-up of [parts] from [trail] comes, in a directory, to a name
    that is not there and is longer than [NAME_MAX]: the kernel answers
    [ENAMETOOLONG] where it answers [ENOENT] for a shorter name.  (A name
    over [NAME_MAX] is in no directory.) *)
Fixpoint name_too_long (trail : list node) (parts : list string) : bool :=
  match parts with
  | [] => false
  | p :: ps =>
      match trail with
      | Dir es :: up =>
          if String.eqb p ".." then
            name_too_long (match up with [] => trail | _ => up end) ps
          else
            match entry p es with
            | Some n => name_too_long (n :: trail) ps
            | None => Nat.ltb NAME_MAX (String.length p)
            end
      | _ => false
      end
  end.

(** [os.stat] of the relative path [parts] fails with [ENAMETOOLONG]: the
    path is [PATH_MAX] bytes or more, or a name on the way is too long. *)
Definition stat_name_too_long (fs : filesys) (parts : list string) : bool :=
  Nat.leb PATH_MAX (joined_length parts) ||
  match trail_after [root fs] (cwd fs) with
  | Some trail => name_too_long trail parts
  | None => false
  end.

End Fs.
Export Fs.

(** ** The users table *)

Module Db.

(** A row of [users]: [id] is the primary key (never NULL); the other
    columns are nullable strings, [email] is declared unique. *)
Record User : Type := {
  id : string;
  email : option string;
  username : option string;
  profile_picture_url : option string
}.

Abbreviation table := (list User).

(** The constraints the schema declares: distinct primary keys, and
    distinct emails among the rows that have one. *)
Definition table_ok (t : table) : Prop :=
  NoDup (id <$> t) ∧ NoDup (omap email t).

Definition constraints_ok (t : table) : bool :=
  bool_decide (NoDup (id <$> t)) && bool_decide (NoDup (omap email t)).

(** A Python value as the parameter of a [String] column: [None] is NULL, a
    [str] is itself.  What becomes of any other value depends on the driver
    and the database (some store the text of a number); the model lets the
    driver refuse it, and the statements about stored values are about
    strings and NULL. *)
Definition col_value (v : json) : result (option string) :=
  match v with
  | JNull => Ok None
  | JStr s => Ok (Some s)
  | _ => Raise DBAPIError
  end.

Definition json_of_col (c : option string) : json :=
  match c with
  | Some s => JStr s
  | None => JNull
  end.

(** What a session holds when [commit] is called: a loaded row whose
    attributes were assigned, or an object handed to [db.add]. *)
Inductive pending : Type :=
| Dirty (i : nat) (u : User) (email username profile_picture_url : json)
| New (id email username profile_picture_url : json).

End Db.
Export Db.

(** ** The outside world and the handler monad *)

Record world : Type := { users : table; files : filesys }.

Definition M (A : Type) : Type := world -> result A * world.

Definition ret {A} (a : A) : M A := fun w => (Ok a, w).

Definition raise {A} (e : exn) : M A := fun w => (Raise e, w).

Definition bind {A B} (m : M A) (k : A -> M B) : M B :=
  fun w =>
    match m w with
    | (Ok a, w') => k a w'
    | (Raise e, w') => (Raise e, w')
    end.

Definition lift {A} (r : result A) : M A := fun w => (r, w).

Notation "x <- m ;; k" := (bind m (fun x => k))
  (at level 100, m at next level, right associativity).
Notation "m ;;; k" := (bind m (fun _ => k))
  (at level 100, right associativity).

Fixpoint foldM {A B} (f : A -> B -> M A) (l : list B) (a : A) : M A :=
  match l with
  | [] => ret a
  | b :: l' => a' <- f a b ;; foldM f l' a'
  end.

(** [db.query(User).filter(User.id == user_id).first()]: the first row with
    that key and where it sits.  [== None] compiles to [IS NULL], which no
    row satisfies.  A key that is neither is compared as the database sees
    fit; the model lets it be refused, as PostgreSQL does. *)
Definition query_first_by_id (user_id : json) : M (option (nat * User)) :=
  fun w =>
    match user_id with
    | JNull => (Ok None, w)
    | JStr s => (Ok (list_find (fun u => id u = s) (users w)), w)
    | _ => (Raise DBAPIError, w)
    end.

(** The table as the pending work would leave it. *)
Definition flush (p : pending) (t : table) : result table :=
  match p with
  | Dirty i u e n p =>
      match col_value e, col_value n, col_value p with
      | Ok e', Ok n', Ok p' =>
          Ok (<[i := {| id := id u; email := e'; username := n';
                        profile_picture_url := p' |}]> t)
      | _, _, _ => Raise DBAPIError
      end
  | New k e n p =>
      match col_value k, col_value e, col_value n, col_value p with
      | Ok (Some k'), Ok e', Ok n', Ok p' =>
          Ok (t ++ [{| id := k'; email := e'; username := n';
                       profile_picture_url := p' |}])
      | Ok None, Ok _, Ok _, Ok _ => Raise IntegrityError
      | _, _, _, _ => Raise DBAPIError
      end
  end.

(** [db.commit()]: the transaction is written whole if the table it leaves
    satisfies the declared constraints, and not at all otherwise. *)
Definition commit (p : pending) : M unit :=
  fun w =>
    match flush p (users w) with
    | Ok t' =>
        if constraints_ok t' then (Ok (), {| users := t'; files := files w |})
        else (Raise IntegrityError, w)
    | Raise e => (Raise e, w)
    end.

(** [Path.exists()]: [False] when [os.stat] finds no such file ([ENOENT],
    [ENOTDIR]); its other errors are raised again, of which the model has
    [ENAMETOOLONG]. *)
Definition path_exists (parts : list string) : M bool :=
  fun w =>
    if stat_name_too_long (files w) parts then (Raise OSError, w)
    else (Ok (bool_decide (is_Some (resolve (files w) parts))), w).

(** [open(path, 'r')] and [f.read()]: the text of a file; a directory
    cannot be opened, and bytes that are not text cannot be decoded. *)
Definition read_node (n : node) : result string :=
  match n with
  | File text => Ok text
  | Dir _ => Raise IsADirectoryError
  | Binary _ => Raise UnicodeDecodeError
  end.

Definition open_read (parts : list string) : M string :=
  fun w =>
    match resolve (files w) parts with
    | Some n => (read_node n, w)
    | None => (Raise FileNotFoundError, w)
    end.

(** [Path(base).rglob(name)]; nothing is yielded when [base] is not a
    directory. *)
Definition rglob_from (base : list string) (name : string) : M (list node) :=
  fun w =>
    match resolve (files w) base with
    | Some n => (Ok (rglob name n), w)
    | None => (Ok [], w)
    end.

(** [Path(base).glob("*/" + name)]. *)
Definition glob_children_from (base : list string) (name : string) : M (list node) :=
  fun w =>
    match resolve (files w) base with
    | Some n => (Ok (glob_children name n), w)
    | None => (Ok [], w)
    end.

(** ** The handlers *)

(** The incoming request: header names as the server delivers them (lower
    case), and the raw body. *)
Record Request : Type := { headers : list (string * string); body : string }.

(** [request.headers.get(name)]. *)
Fixpoint header_get (name : string) (hs : list (string * string)) : option string :=
  match hs with
  | [] => None
  | (n, v) :: hs' => if String.eqb name n then Some v else header_get name hs'
  end.

(** The dict that [handle_webhook] hands to svix. *)
Record svix_headers : Type := {
  svix_id : option string;
  svix_timestamp : option string;
  svix_signature : option string
}.

Definition webhook_headers (request : Request) : svix_headers :=
  {| svix_id := header_get "svix-id" (headers request);
     svix_timestamp := header_get "svix-timestamp" (headers request);
     svix_signature := header_get "svix-signature" (headers request) |}.

Inductive call : Type :=
| PostWebhook (request : Request)
| GetGames
| GetGame (dir_name : string)
| GetUserData (user_id : string).

Section Handlers.

(** [Webhook(SVIX_SECRET).verify]: the parsed payload, or the exception it
    raises ([WebhookVerificationError] for a signature that does not
    verify). *)
Variable verify : string -> svix_headers -> result json.

(** [json.loads]; [None] is a [JSONDecodeError]. *)
Variable json_loads : string -> option json.

(** [dict.update] with an argument that is not a dict (Python then reads
    it as a sequence of pairs). *)
Variable update_from_pairs : dict -> json -> result dict.

Definition loads (data : string) : result json :=
  match json_loads data with
  | Some j => Ok j
  | None => Raise JSONDecodeError
  end.

Definition update (d : dict) (parsed_data : json) : result dict :=
  match parsed_data with
  | JObj other => Ok (dict_update d other)
  | _ => update_from_pairs d parsed_data
  end.

Definition handle_webhook (request : Request) : M json :=
  let headers := webhook_headers request in
  json_payload <-
    match verify (body request) headers with
    | Raise WebhookVerificationError =>
        raise (HTTPException 400 "Invalid webhook signature")
    | r => lift r
    end ;;
  event_type <- lift (py_get json_payload "type" JNull) ;;
  data <- lift (py_get json_payload "data" (JObj [])) ;;
  user_data <- lift (py_get data "object" (JObj [])) ;;
  (if is_user_event event_type then
     user_id <- lift (py_get user_data "id" JNull) ;;
     email_addresses <- lift (py_get user_data "email_addresses" JNull) ;;
     first_address <- lift (py_item0 email_addresses) ;;
     email <- lift (py_item first_address "email_address") ;;
     username <- lift (py_get user_data "username" JNull) ;;
     profile_picture_url <- lift (py_get user_data "profile_image_url" JNull) ;;
     db_user <- query_first_by_id user_id ;;
     commit match db_user with
            | Some (i, u) => Dirty i u email username profile_picture_url
            | None => New user_id email username profile_picture_url
            end
   else ret ()) ;;;
  ret (JObj [("status", JStr "success")]).

(** The loop of [get_combined_json] over the files it is given. *)
Definition merge_files (json_files : list node) (combined_data : dict) : M dict :=
  foldM (fun combined_data json_file =>
           data <- lift (read_node json_file) ;;
           parsed_data <- lift (loads data) ;;
           lift (update combined_data parsed_data))
        json_files combined_data.

Definition get_combined_json : M json :=
  let combined_data := [("__comment__", JStr "Combined data")] in
  json_files <- rglob_from ["games"] "data.json" ;;
  combined_data <- merge_files json_files combined_data ;;
  ret (JObj combined_data).

(** The catalogue as the specification words it, to be compared with
    [get_combined_json]: the same merge over the files that match
    [games/*/data.json], one level down and no other. *)
Definition spec_combined_json : M json :=
  let combined_data := [("__comment__", JStr "Combined data")] in
  json_files <- glob_children_from ["games"] "data.json" ;;
  combined_data <- merge_files json_files combined_data ;;
  ret (JObj combined_data).

Definition get_json_file (dir_name : string) : M json :=
  let json_path := path_parts ("./games/" +:+ dir_name +:+ "/data.json") in
  found <- path_exists json_path ;;
  if found : bool then
    data <- open_read json_path ;;
    lift (loads data)
  else raise (HTTPException 404 "File not found").

Definition get_user_data (user_id : string) : M json :=
  db_user <- query_first_by_id (JStr user_id) ;;
  match db_user with
  | Some (_, u) =>
      ret (JObj [("id", JStr (id u));
                 ("email", json_of_col (email u));
                 ("username", json_of_col (username u));
                 ("profile_picture_url", json_of_col (profile_picture_url u))])
  | None => raise (HTTPException 404 "User not found")
  end.

(** The application: one call, and a run of calls from a given world. *)
Definition serve (c : call) : M json :=
  match c with
  | PostWebhook request => handle_webhook request
  | GetGames => get_combined_json
  | GetGame dir_name => get_json_file dir_name
  | GetUserData user_id => get_user_data user_id
  end.

Definition run (cs : list call) (w : world) : world :=
  fold_left (fun w c => (serve c w).2) cs w.

End Handlers.

(** ** Vocabulary of the statements *)

(** What every non-error path of the webhook handler returns. *)
Definition success : json := JObj [("status", JStr "success")].

(** The payload [j] is an event of type [t] whose [data.object] is
    [user_data], read the way the handler reads them. *)
Definition envelope (j t user_data : json) : Prop :=
  py_get j "type" JNull = Ok t ∧
  ∃ data, py_get j "data" (JObj []) = Ok data ∧
          py_get data "object" (JObj []) = Ok user_data.

(** The user object [u] carries the address [e] first in its
    [email_addresses]. *)
Definition first_email (u : dict) (e : json) : Prop :=
  ∃ a rest, dict_get "email_addresses" u = Some (JArr (JObj a :: rest)) ∧
            dict_get "email_address" a = Some e.

(** The column value that the optional field [k] of [u] gives. *)
Definition optional_field (u : dict) (k : string) (c : option string) : Prop :=
  col_value (default JNull (dict_get k u)) = Ok c.

(** No row other than the one keyed [i] holds the email [e]. *)
Definition email_free (t : table) (i e : string) : Prop :=
  ∀ r, r ∈ t → email r = Some e → id r = i.

(** The object that [get_user_data] answers with for a row. *)
Definition user_json (u : User) : json :=
  JObj [("id", JStr (id u));
        ("email", json_of_col (email u));
        ("username", json_of_col (username u));
        ("profile_picture_url", json_of_col (profile_picture_url u))].

(** A dict as Python has it: no key twice. *)
Definition dict_wf (d : dict) : Prop := NoDup d.*1.

(** [n] is a regular file whose text parses to the object [o]. *)
Definition parses_to (json_loads : string -> option json) (n : node) (o : dict) : Prop :=
  ∃ text, n = File text ∧ json_loads text = Some (JObj o) ∧ dict_wf o.

(** The documented layout of [games/]: one subdirectory per game, holding
    files only, and no [name] in [games/] itself. *)
Definition flat_layout (name : string) (g : node) : Prop :=
  ∃ es, g = Dir es ∧ entry name es = None ∧
        ∀ n sub, (n, Dir sub) ∈ es → ∀ m x, (m, x) ∈ sub → ∃ text, x = File text.

(** The files that GET /games/ reads, in the order it reads them. *)
Definition games_files (w : world) : list node :=
  match resolve (files w) ["games"] with
  | Some g => rglob "data.json" g
  | None => []
  end.

(** A name that is one path component: no [/], not empty, not [.]. *)
Fixpoint no_slash (s : string) : bool :=
  match s with
  | EmptyString => true
  | String c s' => negb (Ascii.eqb c "/"%char) && no_slash s'
  end.

Definition component (s : string) : bool :=
  no_slash s && negb (String.eqb s EmptyString || String.eqb s ".").

(** The node at the end of a chain of entry names below [n]. *)
Fixpoint descend (n : node) (names : list string) : option node :=
  match names with
  | [] => Some n
  | x :: names' =>
      match n with
      | Dir es =>
          match entry x es with
          | Some c => descend c names'
          | None => None
          end
      | File _ | Binary _ => None
      end
  end.

(** A tree in which every directory lists each name once. *)
Inductive node_wf : node → Prop :=
| wf_File text : node_wf (File text)
| wf_Binary content : node_wf (Binary content)
| wf_Dir es : NoDup es.*1 → Forall (λ e, node_wf e.2) es → node_wf (Dir es).

(** ** Sample data *)

Module Sample.

Definition request : Request :=
  {| headers := [("svix-id", "msg_1"); ("svix-timestamp", "1700000000");
                 ("svix-signature", "v1,c2lnbmF0dXJl")];
     body := "{}" |}.

Definition alice : User :=
  {| id := "user_1"; email := Some "alice@example.com";
     username := Some "alice"; profile_picture_url := None |}.

Definition bob : User :=
  {| id := "user_2"; email := Some "bob@example.com";
     username := None; profile_picture_url := None |}.

Definition user_object (i e n p : string) : json :=
  JObj [("id", JStr i);
        ("email_addresses", JArr [JObj [("email_address", JStr e)]]);
        ("username", JStr n);
        ("profile_image_url", JStr p)].

Definition event (t : string) (user_data : json) : json :=
  JObj [("type", JStr t); ("data", JObj [("object", user_data)])].

(** A verifier that accepts the request and yields the payload [j]. *)
Definition accept (j : json) : string -> svix_headers -> result json :=
  fun _ _ => Ok j.

(** A verifier that finds the signature wrong. *)
Definition reject : string -> svix_headers -> result json :=
  fun _ _ => Raise WebhookVerificationError.

(** Two games, [alpha] listed before [beta]. *)
Definition games : node :=
  Dir [("alpha", Dir [("data.json", File "alpha")]);
       ("beta", Dir [("data.json", File "beta")])].

Definition disk : filesys := {| root := Dir [("games", games)]; cwd := [] |}.

(** A disk with a [data.json] directly in [games/] as well. *)
Definition disk_top : filesys :=
  {| root := Dir [("games", Dir [("data.json", File "top");
                                 ("alpha", Dir [("data.json", File "alpha")])])];
     cwd := [] |}.

(** The parser on the texts of the sample disks. *)
Definition loads_sample (text : string) : option json :=
  if String.eqb text "alpha" then
    Some (JObj [("title", JStr "Alpha"); ("players", JInt 2)])
  else if String.eqb text "beta" then
    Some (JObj [("title", JStr "Beta"); ("__comment__", JStr "beta notes")])
  else if String.eqb text "top" then
    Some (JObj [("motd", JStr "hello")])
  else None.

Definition no_pairs : dict -> json -> result dict :=
  fun _ _ => Raise TypeError.

Definition w0 : world := {| users := [alice; bob]; files := disk |}.

Definition w_top : world := {| users := []; files := disk_top |}.

(** A new user with an address of her own. *)
Definition carol_created : json :=
  event "user.created"
    (user_object "user_3" "carol@example.com" "carol" "https://img.example.com/3.png").

(** A new user who comes with the address that [alice] holds. *)
Definition mallory_created : json :=
  event "user.created"
    (user_object "user_4" "alice@example.com" "mallory" "https://img.example.com/4.png").

(** [alice] updated, with a new address. *)
Definition alice_updated : json :=
  event "user.updated"
    (user_object "user_1" "alice@example.org" "alice" "https://img.example.com/1.png").

(** [alice] updated, with the address that [bob] holds. *)
Definition alice_takes_bob : json :=
  event "user.updated"
    (user_object "user_1" "bob@example.com" "alice" "https://img.example.com/1.png").

End Sample.

(** ** Vocabulary of the further properties *)

(** A call that only reads. *)
Definition is_read (c : call) : bool :=
  match c with
  | PostWebhook _ => false
  | _ => true
  end.

(** The files that define the key [k]. *)
Definition definers (k : string) (objs : list dict) : list dict :=
  filter (λ o, is_Some (dict_get k o)) objs.

(** ** More sample data *)

Module More.

Definition carol_object : json :=
  Sample.user_object "user_3" "carol@example.com" "carol"
    "https://img.example.com/3.png".

Definition request_created : Request :=
  {| headers := headers Sample.request; body := "created" |}.

Definition request_updated : Request :=
  {| headers := headers Sample.request; body := "updated" |}.

(** A verifier that reads the event type off the body. *)
Definition verify_by_body : string -> svix_headers -> result json :=
  fun body _ =>
    if String.eqb body "created" then Ok (Sample.event "user.created" carol_object)
    else Ok (Sample.event "user.updated" carol_object).

(** [bob] updated with nothing but his id and a new address. *)
Definition bob_updated : json :=
  Sample.event "user.updated"
    (JObj [("id", JStr "user_2");
           ("email_addresses", JArr [JObj [("email_address", JStr "bob@example.org")]])]).

(** A session event whose [data] is [null]. *)
Definition session_null_data : json :=
  JObj [("type", JStr "session.created"); ("data", JNull)].

Definition carol : User :=
  {| id := "user_3"; email := Some "carol@example.com";
     username := Some "carol";
     profile_picture_url := Some "https://img.example.com/3.png" |}.

End More.

Module MoreFiles.

(** Bytes that are not text: a lone byte 255. *)
Definition not_text : string := String "255"%char EmptyString.

(** A disk whose [beta/data.json] is not JSON, whose [gamma/data.json] is a
    directory, whose [delta/data.json] is not text, and with a [data.json]
    beside [games/]. *)
Definition disk_bad : filesys :=
  {| root := Dir [("srv", Dir [
        ("data.json", File "top");
        ("games", Dir [("alpha", Dir [("data.json", File "alpha")]);
                       ("beta", Dir [("data.json", File "not json")]);
                       ("gamma", Dir [("data.json", Dir [])]);
                       ("delta", Dir [("data.json", Binary not_text)])])])];
     cwd := ["srv"] |}.

Definition w_bad : world := {| users := []; files := disk_bad |}.

(** A name of 256 bytes, one more than a file name can have. *)
Definition long_name : string := string_of_list_ascii (repeat "a"%char 256).

End MoreFiles.

(** * Properties *)

(** ** Dictionaries *)

Lemma dict_get_set_eq k v d : dict_get k (dict_set k v d) = Some v.
Proof.
  induction d as [|[k' v'] d IH]; simpl.
  - by rewrite String.eqb_refl.
  - destruct (String.eqb k k') eqn:E; simpl; rewrite E; auto.
Qed.

Lemma dict_get_set_ne k k' v d :
  k ≠ k' → dict_get k (dict_set k' v d) = dict_get k d.
Proof.
  intros Hne. induction d as [|[k2 v2] d IH]; simpl.
  - destruct (String.eqb_spec k k'); congruence.
  - destruct (String.eqb_spec k' k2) as [->|]; simpl.
    + destruct (String.eqb_spec k k2); congruence.
    + destruct (String.eqb_spec k k2); auto.
Qed.

Lemma dict_get_None k (d : dict) : dict_get k d = None ↔ k ∉ d.*1.
Proof.
  induction d as [|[k' v'] d IH]; simpl.
  - split; [intros _; apply not_elem_of_nil | done].
  - rewrite not_elem_of_cons. destruct (String.eqb_spec k k'); naive_solver.
Qed.

(** After [d.update(other)] a key reads as in [other] when [other] has it,
    and as in [d] otherwise. *)
Lemma dict_get_update k (d other : dict) :
  dict_wf other →
  dict_get k (dict_update d other) =
    match dict_get k other with
    | Some v => Some v
    | None => dict_get k d
    end.
Proof.
  unfold dict_wf, dict_update. revert d.
  induction other as [|[k' v'] other IH]; intros d Hwf; simpl; [done|].
  apply NoDup_cons in Hwf as [Hk' Hwf]. simpl in Hk'.
  rewrite IH by done.
  destruct (String.eqb_spec k k') as [->|Hne].
  - apply dict_get_None in Hk'. rewrite Hk'. apply dict_get_set_eq.
  - destruct (dict_get k other); [done|]. by apply dict_get_set_ne.
Qed.

(** ** The webhook handler: rejections and no-ops *)

Section Webhook.

Context (verify : string -> svix_headers -> result json).

(** The handler up to the test on the event type, for an accepted
    payload. *)
Lemma handle_webhook_accepted request w j t user_data :
  verify (body request) (webhook_headers request) = Ok j →
  envelope j t user_data →
  handle_webhook verify request w =
    ((if is_user_event t then
        user_id <- lift (py_get user_data "id" JNull) ;;
        email_addresses <- lift (py_get user_data "email_addresses" JNull) ;;
        first_address <- lift (py_item0 email_addresses) ;;
        email <- lift (py_item first_address "email_address") ;;
        username <- lift (py_get user_data "username" JNull) ;;
        profile_picture_url <- lift (py_get user_data "profile_image_url" JNull) ;;
        db_user <- query_first_by_id user_id ;;
        commit match db_user with
               | Some (i, u) => Dirty i u email username profile_picture_url
               | None => New user_id email username profile_picture_url
               end
      else ret ()) ;;;
     ret success) w.
Proof.
  intros Hv (Ht & data & Hd & Hu).
  unfold handle_webhook, bind at 1 2 3 4. rewrite Hv. unfold lift at 1 2 3 4.
  by rewrite Ht, Hd, Hu.
Qed.

(** Nothing but [commit] writes: a webhook that ends in an exception
    leaves the world as it was. *)
Lemma handle_webhook_error_frame request w e w' :
  handle_webhook verify request w = (Raise e, w') → w' = w.
Proof.
  unfold handle_webhook, bind, lift, raise, ret, query_first_by_id, commit.
  intros H.
  repeat (case_match; simplify_eq/=); done.
Qed.

(** The file system is never written by a webhook. *)
Lemma handle_webhook_files request w :
  files (handle_webhook verify request w).2 = files w.
Proof.
  unfold handle_webhook, bind, lift, raise, ret, query_first_by_id, commit.
  repeat (case_match; simplify_eq/=); done.
Qed.

End Webhook.

(** C1.  A POST /webhook request whose signature verification fails is
    answered with status 400, and the world (the users table with it) is
    exactly what it was before the request. *)
Theorem C1_bad_signature_rejected
    (verify : string -> svix_headers -> result json) request w :
  verify (body request) (webhook_headers request) = Raise WebhookVerificationError →
  handle_webhook verify request w =
    (Raise (HTTPException 400 "Invalid webhook signature"), w) ∧
  status_of (handle_webhook verify request w).1 = 400 ∧
  users (handle_webhook verify request w).2 = users w.
Proof.
  intros Hv.
  assert (handle_webhook verify request w =
            (Raise (HTTPException 400 "Invalid webhook signature"), w)) as ->.
  { unfold handle_webhook, bind at 1. by rewrite Hv. }
  done.
Qed.

Lemma C1_bad_signature_rejected_witness :
  handle_webhook Sample.reject Sample.request Sample.w0 =
    (Raise (HTTPException 400 "Invalid webhook signature"), Sample.w0) ∧
  status_of (handle_webhook Sample.reject Sample.request Sample.w0).1 = 400 ∧
  users (handle_webhook Sample.reject Sample.request Sample.w0).2 = users Sample.w0.
Proof.
  apply (C1_bad_signature_rejected Sample.reject Sample.request Sample.w0).
  reflexivity.
Defined.

(** C9.  A validly signed event of another type is not always answered
    with success: the handler reads [data.object] before it looks at the
    type, so on a [session.created] event whose [data] is [null] the request
    ends in the [AttributeError] of [None.get] (status 500); nothing is
    written. *)
Theorem C9_null_data_is_not_success :
  is_user_event (JStr "session.created") = false ∧
  handle_webhook (Sample.accept More.session_null_data)
    Sample.request Sample.w0 = (Raise AttributeError, Sample.w0) ∧
  status_of (handle_webhook (Sample.accept More.session_null_data)
               Sample.request Sample.w0).1 = 500.
Proof. by split_and!. Qed.

(** X20.  A validly signed event whose type is neither [user.created] nor
    [user.updated] writes nothing, whatever its [data] is; when its [data]
    is absent or an object (with [object] absent or anything), it is
    answered with [{"status": "success"}]. *)
Theorem X20_other_event_is_noop
    (verify : string -> svix_headers -> result json) request w j t :
  verify (body request) (webhook_headers request) = Ok j →
  py_get j "type" JNull = Ok t →
  is_user_event t = false →
  (handle_webhook verify request w).2 = w ∧
  (∀ user_data,
     envelope j t user_data →
     handle_webhook verify request w = (Ok success, w) ∧
     status_of (handle_webhook verify request w).1 = 200).
Proof.
  intros Hv Htype Ht. split.
  - unfold handle_webhook, bind at 1 2 3 4. rewrite Hv. unfold lift at 1 2 3 4.
    rewrite Htype.
    destruct (py_get j "data" (JObj [])) as [data|]; [|done].
    destruct (py_get data "object" (JObj [])) as [user_data|]; [|done].
    by rewrite Ht.
  - intros user_data Henv.
    rewrite (handle_webhook_accepted verify request w j t user_data Hv Henv), Ht.
    done.
Qed.

Lemma X20_other_event_is_noop_witness :
  handle_webhook (Sample.accept (Sample.event "session.created" (JObj [])))
      Sample.request Sample.w0 = (Ok success, Sample.w0) ∧
  status_of (handle_webhook (Sample.accept (Sample.event "session.created" (JObj [])))
               Sample.request Sample.w0).1 = 200.
Proof.
  refine (proj2 (X20_other_event_is_noop _ Sample.request Sample.w0
           (Sample.event "session.created" (JObj []))
           (JStr "session.created") _ _ _) (JObj []) _).
  - reflexivity.
  - reflexivity.
  - reflexivity.
  - split; [reflexivity|]. eexists. split; reflexivity.
Defined.

(** C4.  On a validly signed [user.created] event whose [email_addresses]
    is the empty array the handler indexes it all the same: the request ends
    in the [IndexError] of [email_addresses[0]], not in a rejection of the
    handler's own, and on an absent [email_addresses] in the [TypeError] of
    [None[0]]. *)
Theorem C4_email_addresses_unguarded :
  handle_webhook
    (Sample.accept (Sample.event "user.created"
       (JObj [("id", JStr "user_9"); ("email_addresses", JArr [])])))
    Sample.request Sample.w0 = (Raise IndexError, Sample.w0) ∧
  handle_webhook
    (Sample.accept (Sample.event "user.updated" (JObj [("id", JStr "user_1")])))
    Sample.request Sample.w0 = (Raise TypeError, Sample.w0).
Proof. split; reflexivity. Qed.

(** C5.  A validly signed [user.created] or [user.updated] event whose user
    object has no [id] ends in an error (status 500) and leaves the world,
    hence the users table, as it was: no row is inserted. *)
Theorem C5_missing_id_rejected
    (verify : string -> svix_headers -> result json) request w j t u :
  verify (body request) (webhook_headers request) = Ok j →
  envelope j t (JObj u) →
  is_user_event t = true →
  dict_get "id" u = None →
  ∃ e, handle_webhook verify request w = (Raise e, w) ∧
       status_of (handle_webhook verify request w).1 = 500.
Proof.
  intros Hv Henv Ht Hid.
  rewrite (handle_webhook_accepted verify request w j t (JObj u) Hv Henv), Ht.
  unfold bind, lift, ret, query_first_by_id, commit, flush. simpl. rewrite Hid. simpl.
  repeat (case_match; simplify_eq/=); eauto;
    unfold py_item, py_item0 in *; repeat (case_match; simplify_eq/=).
Qed.

Lemma C5_missing_id_rejected_witness :
  ∃ e, handle_webhook
         (Sample.accept (Sample.event "user.created"
            (JObj [("email_addresses", JArr [JObj [("email_address", JStr "carol@example.com")]])])))
         Sample.request Sample.w0 = (Raise e, Sample.w0) ∧
       status_of (handle_webhook
         (Sample.accept (Sample.event "user.created"
            (JObj [("email_addresses", JArr [JObj [("email_address", JStr "carol@example.com")]])])))
         Sample.request Sample.w0).1 = 500.
Proof.
  eapply (C5_missing_id_rejected _ Sample.request Sample.w0 _ (JStr "user.created")).
  - reflexivity.
  - split; [reflexivity|]. eexists. split; reflexivity.
  - reflexivity.
  - reflexivity.
Defined.

(** ** The users table *)

Lemma constraints_ok_spec t : constraints_ok t = true ↔ table_ok t.
Proof.
  unfold constraints_ok, table_ok.
  by rewrite andb_true_iff, !bool_decide_eq_true.
Qed.

(** Distinctness of a partial key, by positions. *)
Lemma NoDup_omap_alt {A B} (f : A → option B) (l : list A) :
  NoDup (omap f l) ↔
  ∀ i j x y z, l !! i = Some x → l !! j = Some y →
               f x = Some z → f y = Some z → i = j.
Proof.
  induction l as [|a l IH]; csimpl.
  - split; [intros _ i j x y z Hi; by rewrite lookup_nil in Hi | constructor].
  - destruct (f a) as [b|] eqn:Hfa.
    + rewrite NoDup_cons, IH, list_elem_of_omap. split.
      * intros [Hb Hl] [|i] [|j] x y z Hi Hj Hx Hy; simplify_eq/=; auto.
        -- destruct Hb. eauto using list_elem_of_lookup_2.
        -- destruct Hb. eauto using list_elem_of_lookup_2.
        -- f_equal. eauto.
      * intros H. split.
        -- intros (x & [j Hj]%list_elem_of_lookup_1 & Hx).
           by specialize (H 0 (S j) a x b eq_refl Hj Hfa Hx).
        -- intros i j x y z Hi Hj Hx Hy.
           by specialize (H (S i) (S j) x y z Hi Hj Hx Hy) as [= ->].
    + rewrite IH. split.
      * intros Hl [|i] [|j] x y z Hi Hj Hx Hy; simplify_eq/=; auto.
        f_equal. eauto.
      * intros H i j x y z Hi Hj Hx Hy.
        by specialize (H (S i) (S j) x y z Hi Hj Hx Hy) as [= ->].
Qed.

Lemma NoDup_ids_alt (t : table) :
  NoDup (id <$> t) ↔
  ∀ i j x y, t !! i = Some x → t !! j = Some y → id x = id y → i = j.
Proof.
  rewrite NoDup_alt. split.
  - intros H i j x y Hi Hj Hxy. apply (H i j (id x)).
    + by rewrite list_lookup_fmap, Hi.
    + by rewrite list_lookup_fmap, Hj, Hxy.
  - intros H i j k. rewrite !list_lookup_fmap.
    intros (x & Hx & ->)%fmap_Some (y & Hy & Hxy)%fmap_Some. eauto.
Qed.

(** The query finds the row keyed [id r], wherever it sits. *)
Lemma list_find_by_id (t : table) k r :
  NoDup (id <$> t) → t !! k = Some r →
  list_find (λ u, id u = id r) t = Some (k, r).
Proof.
  intros Hnd Hk. apply list_find_Some. split_and!; [done..|].
  intros j y Hj Hlt Hy.
  assert (j = k) by (eapply NoDup_ids_alt; eauto). lia.
Qed.

Lemma list_find_by_id_None (t : table) i :
  list_find (λ u, id u = i) t = None ↔ i ∉ id <$> t.
Proof.
  rewrite list_find_None, Forall_forall, list_elem_of_fmap. naive_solver.
Qed.

(** Assigning the non-key columns of the row at [k] keeps the key column. *)
Lemma ids_insert_same (t : table) k r r' :
  t !! k = Some r → id r' = id r → id <$> <[k := r']> t = id <$> t.
Proof.
  intros Hk Hid. rewrite list_fmap_insert, Hid.
  apply list_insert_id. by rewrite list_lookup_fmap, Hk.
Qed.

(** An update of row [k] keeps the table within its constraints when the
    new email is free. *)
Lemma table_ok_insert (t : table) k r r' :
  table_ok t → t !! k = Some r → id r' = id r →
  (∀ e, email r' = Some e → email_free t (id r) e) →
  table_ok (<[k := r']> t).
Proof.
  intros [Hids Hemails] Hk Hid Hfree. split.
  - by rewrite (ids_insert_same t k r r').
  - apply NoDup_omap_alt. intros i j x y z Hi Hj Hx Hy.
    apply list_lookup_insert_Some in Hi as [(-> & -> & _)|[Hik Hi]];
      apply list_lookup_insert_Some in Hj as [(-> & -> & _)|[Hjk Hj]]; auto.
    + specialize (Hfree z Hx y (list_elem_of_lookup_2 _ _ _ Hj) Hy).
      eapply NoDup_ids_alt; eauto.
    + specialize (Hfree z Hy x (list_elem_of_lookup_2 _ _ _ Hi) Hx).
      eapply NoDup_ids_alt; eauto.
    + eapply (proj1 (NoDup_omap_alt email t)); eauto.
Qed.

(** An update of row [k] to an email that another row holds leaves a table
    the unique constraint refuses. *)
Lemma constraints_refuse_taken_email (t : table) k r row r' e :
  t !! k = Some r → r' ∈ t → id r' ≠ id r →
  email row = Some e → email r' = Some e →
  constraints_ok (<[k := row]> t) = false.
Proof.
  intros Hk [j Hj]%list_elem_of_lookup_1 Hne Hrow Hr'.
  apply not_true_iff_false. intros [_ Hemails]%constraints_ok_spec.
  assert (j ≠ k) as Hjk by (intros ->; congruence).
  apply Hjk.
  apply (proj1 (NoDup_omap_alt email (<[k := row]> t)) Hemails j k r' row e);
    [|apply list_lookup_insert_eq; eauto using lookup_lt_Some|done..].
  by rewrite list_lookup_insert_ne.
Qed.

(** An insert keeps the table within its constraints when the key is new
    and the email is free. *)
Lemma table_ok_snoc (t : table) r' :
  table_ok t → id r' ∉ id <$> t →
  (∀ e, email r' = Some e → email_free t (id r') e) →
  table_ok (t ++ [r']).
Proof.
  intros [Hids Hemails] Hnew Hfree. split.
  - rewrite fmap_app. apply NoDup_app. split_and!; [done| |apply NoDup_singleton].
    intros x Hx ->%list_elem_of_singleton. done.
  - rewrite omap_app. apply NoDup_app. split_and!; [done| |].
    + intros e (x & Hx & He)%list_elem_of_omap (y & ->%list_elem_of_singleton & Hy)%list_elem_of_omap.
      destruct Hnew. rewrite <- (Hfree e Hy x Hx He). by apply list_elem_of_fmap_2.
    + csimpl. destruct (email r'); [apply NoDup_singleton | constructor].
Qed.

Section Upsert.

Context (verify : string -> svix_headers -> result json).

(** A complete user event reaches [commit]: the row keyed [i] is rewritten
    where it sits, or appended when there is none, if the table this
    leaves passes the constraint check; otherwise the request ends in an
    [IntegrityError] and nothing is written. *)
Lemma handle_webhook_commit request w j t u i e n p :
  verify (body request) (webhook_headers request) = Ok j →
  envelope j t (JObj u) →
  is_user_event t = true →
  dict_get "id" u = Some (JStr i) →
  first_email u (JStr e) →
  optional_field u "username" n →
  optional_field u "profile_image_url" p →
  let row := {| id := i; email := Some e; username := n;
                profile_picture_url := p |} in
  let t' := match list_find (λ r, id r = i) (users w) with
            | Some (k, _) => <[k := row]> (users w)
            | None => users w ++ [row]
            end in
  handle_webhook verify request w =
    if constraints_ok t' then (Ok success, {| users := t'; files := files w |})
    else (Raise IntegrityError, w).
Proof.
  intros Hv Henv Ht Hid (a & rest & Haddrs & Ha) Hn Hp row.
  rewrite (handle_webhook_accepted verify request w j t (JObj u) Hv Henv), Ht.
  unfold optional_field in Hn, Hp.
  unfold bind, lift, ret, query_first_by_id, commit. simpl.
  rewrite Hid, Haddrs. simpl. rewrite Ha. simpl.
  destruct (list_find (λ r, id r = i) (users w)) as [[k r]|] eqn:Hfind; simpl.
  - apply list_find_Some in Hfind as (Hk & Hr & _).
    rewrite Hn, Hp, Hr. fold row. by destruct (constraints_ok _).
  - rewrite Hn, Hp. fold row. by destruct (constraints_ok _).
Qed.

(** With a free email the constraint check passes. *)
Lemma upsert_constraints_ok (t : table) row :
  table_ok t →
  (∀ e, email row = Some e → email_free t (id row) e) →
  constraints_ok match list_find (λ r, id r = id row) t with
                 | Some (k, _) => <[k := row]> t
                 | None => t ++ [row]
                 end = true.
Proof.
  intros Hok Hfree. apply constraints_ok_spec.
  destruct (list_find _ t) as [[k r]|] eqn:Hfind.
  - apply list_find_Some in Hfind as (Hk & Hr & _).
    apply (table_ok_insert _ k r); auto. by rewrite Hr.
  - apply list_find_by_id_None in Hfind. by apply table_ok_snoc.
Qed.

(** The query on the committed table finds the written row. *)
Lemma list_find_upserted (t : table) row :
  ∃ k, list_find (λ r, id r = id row)
         match list_find (λ r, id r = id row) t with
         | Some (k, _) => <[k := row]> t
         | None => t ++ [row]
         end = Some (k, row).
Proof.
  destruct (list_find _ t) as [[k r]|] eqn:Hfind.
  - exists k. apply list_find_Some in Hfind as (Hk & Hr & Hleast).
    apply list_find_Some. split_and!; [|done|].
    + apply list_lookup_insert_eq. eauto using lookup_lt_Some.
    + intros j y Hj Hlt. rewrite list_lookup_insert_ne in Hj by lia. eauto.
  - exists (0 + length t). rewrite list_find_app_r by done. simpl.
    by rewrite decide_True.
Qed.

(** What a webhook can do to the world: nothing, rewrite the non-key
    columns of one row, or append one row; the table it leaves has passed
    the constraint check. *)
Lemma handle_webhook_world request w :
  (handle_webhook verify request w).2 = w ∨
  (files (handle_webhook verify request w).2 = files w ∧
   constraints_ok (users (handle_webhook verify request w).2) = true ∧
   ((∃ k r r', users w !! k = Some r ∧ id r' = id r ∧
               users (handle_webhook verify request w).2 = <[k := r']> (users w)) ∨
    (∃ r', users (handle_webhook verify request w).2 = users w ++ [r']))).
Proof.
  unfold handle_webhook, bind, lift, raise, ret, query_first_by_id, commit, flush.
  repeat (case_match; simplify_eq/=); auto.
  - right. split_and!; [done..|]. left.
    match goal with H : list_find _ _ = Some _ |- _ =>
      apply list_find_Some in H as (Hk & Hr & _) end.
    do 3 eexists. split_and!; [eassumption| |reflexivity]. done.
  - right. split_and!; [done..|]. right. eauto.
Qed.

(** A webhook keeps the table within its constraints, and keeps every key
    where it was. *)
Lemma handle_webhook_table request w :
  table_ok (users w) →
  table_ok (users (handle_webhook verify request w).2) ∧
  (id <$> users w) `prefix_of` (id <$> users (handle_webhook verify request w).2).
Proof.
  intros Hok.
  destruct (handle_webhook_world request w)
    as [->|(_ & Hc & [(k & r & r' & Hk & Hid & Hw')|(r' & Hw')])]; [done|..].
  - split; [by apply constraints_ok_spec|].
    by rewrite Hw', (ids_insert_same _ k r r').
  - split; [by apply constraints_ok_spec|].
    rewrite Hw', fmap_app. by apply prefix_app_r.
Qed.

End Upsert.

(** ** The reading handlers write nothing *)

Lemma get_user_data_frame user_id w : (get_user_data user_id w).2 = w.
Proof.
  unfold get_user_data, bind, query_first_by_id, ret, raise.
  by repeat (case_match; simplify_eq/=).
Qed.

Lemma get_json_file_frame json_loads dir_name w :
  (get_json_file json_loads dir_name w).2 = w.
Proof.
  unfold get_json_file, bind, path_exists, open_read, lift, raise.
  by repeat (case_match; simplify_eq/=).
Qed.

Lemma merge_files_frame json_loads update_from_pairs json_files combined_data w :
  (merge_files json_loads update_from_pairs json_files combined_data w).2 = w.
Proof.
  unfold merge_files. revert combined_data.
  induction json_files as [|f fs IH]; intros d; simpl; [done|].
  unfold bind at 1. unfold bind, lift.
  destruct (read_node f); simpl; [|done].
  destruct (loads json_loads _); simpl; [|done].
  destruct (update update_from_pairs d _); simpl; [|done].
  apply IH.
Qed.

Lemma get_combined_json_frame json_loads update_from_pairs w :
  (get_combined_json json_loads update_from_pairs w).2 = w.
Proof.
  unfold get_combined_json, bind at 1, rglob_from.
  destruct (resolve (files w) ["games"]); unfold bind;
    match goal with |- context [merge_files ?a ?b ?c ?d ?w] =>
      pose proof (merge_files_frame a b c d w);
      destruct (merge_files a b c d w) as [[]] end; by simplify_eq/=.
Qed.

Section Application.

Context (verify : string -> svix_headers -> result json)
        (json_loads : string -> option json)
        (update_from_pairs : dict -> json -> result dict).

Lemma serve_table c w :
  table_ok (users w) →
  table_ok (users (serve verify json_loads update_from_pairs c w).2) ∧
  (id <$> users w) `prefix_of`
    (id <$> users (serve verify json_loads update_from_pairs c w).2).
Proof.
  intros Hok. destruct c; simpl.
  - by apply handle_webhook_table.
  - by rewrite get_combined_json_frame.
  - by rewrite get_json_file_frame.
  - by rewrite get_user_data_frame.
Qed.

Lemma run_table cs w :
  table_ok (users w) →
  table_ok (users (run verify json_loads update_from_pairs cs w)).
Proof.
  unfold run. revert w. induction cs as [|c cs IH]; intros w Hok; simpl; [done|].
  apply IH. by apply serve_table.
Qed.

End Application.

(** ** The webhook handler and the lookup *)

(** C8.  GET /user/{user_id}/data answers with the flat object of the four
    columns of the row keyed [user_id] when there is one, with a 404 when
    there is none, and leaves the world as it was in both cases. *)
Theorem C8_user_lookup w user_id :
  NoDup (id <$> users w) →
  (∀ r, r ∈ users w → id r = user_id →
        get_user_data user_id w = (Ok (user_json r), w)) ∧
  ((∀ r, r ∈ users w → id r ≠ user_id) →
   get_user_data user_id w = (Raise (HTTPException 404 "User not found"), w) ∧
   status_of (get_user_data user_id w).1 = 404) ∧
  (get_user_data user_id w).2 = w.
Proof.
  intros Hnd. split_and!.
  - intros r [k Hk]%list_elem_of_lookup_1 <-.
    unfold get_user_data, bind, query_first_by_id.
    by rewrite (list_find_by_id _ k r).
  - intros Hnone.
    assert (list_find (λ u, id u = user_id) (users w) = None) as Hfind.
    { apply list_find_None, Forall_forall. exact Hnone. }
    unfold get_user_data, bind, query_first_by_id. by rewrite Hfind.
  - apply get_user_data_frame.
Qed.

Lemma C8_user_lookup_witness :
  get_user_data "user_2" Sample.w0 =
    (Ok (JObj [("id", JStr "user_2"); ("email", JStr "bob@example.com");
               ("username", JNull); ("profile_picture_url", JNull)]),
     Sample.w0).
Proof.
  refine (proj1 (C8_user_lookup Sample.w0 "user_2" _) Sample.bob _ _).
  - apply (bool_decide_eq_true_1 _). vm_compute. reflexivity.
  - apply list_elem_of_In. simpl. auto.
  - reflexivity.
Defined.

(** C3, as the specification states it, fails: a validly signed
    [user.created] event carrying all four fields, whose address another row
    holds, is refused by the unique constraint on [email], and the lookup
    of its id finds nothing. *)
Lemma C3_counterexample_email_taken :
  envelope Sample.mallory_created (JStr "user.created")
    (Sample.user_object "user_4" "alice@example.com" "mallory"
       "https://img.example.com/4.png") ∧
  handle_webhook (Sample.accept Sample.mallory_created) Sample.request Sample.w0 =
    (Raise IntegrityError, Sample.w0) ∧
  (get_user_data "user_4"
     (handle_webhook (Sample.accept Sample.mallory_created)
        Sample.request Sample.w0).2).1 =
    Raise (HTTPException 404 "User not found").
Proof.
  split_and!; [|reflexivity..].
  split; [reflexivity|]. eexists. split; reflexivity.
Qed.

(** C3, amended.  A validly signed [user.created] event carrying id, email,
    username and picture URL, whose email no row under another id holds, is
    answered with success, and the lookup of the same id then returns the
    submitted email, username and picture URL. *)
Theorem C3_created_then_lookup
    (verify : string -> svix_headers -> result json) request w j u i e n p :
  table_ok (users w) →
  verify (body request) (webhook_headers request) = Ok j →
  envelope j (JStr "user.created") (JObj u) →
  dict_get "id" u = Some (JStr i) →
  first_email u (JStr e) →
  dict_get "username" u = Some (JStr n) →
  dict_get "profile_image_url" u = Some (JStr p) →
  email_free (users w) i e →
  ∃ w', handle_webhook verify request w = (Ok success, w') ∧
        get_user_data i w' =
          (Ok (JObj [("id", JStr i); ("email", JStr e);
                     ("username", JStr n); ("profile_picture_url", JStr p)]),
           w').
Proof.
  intros Hok Hv Henv Hid He Hn Hp Hfree.
  set (row := {| id := i; email := Some e; username := Some n;
                 profile_picture_url := Some p |}).
  rewrite (handle_webhook_commit verify request w j _ u i e (Some n) (Some p))
    by (done || by unfold optional_field; rewrite ?Hn, ?Hp).
  fold row.
  assert (Hc := upsert_constraints_ok (users w) row Hok).
  destruct (list_find_upserted (users w) row) as [k Hk].
  change (id row) with i in Hc, Hk.
  rewrite Hc by (by intros ? [= <-]).
  eexists. split; [reflexivity|].
  unfold get_user_data, bind, query_first_by_id. simpl. by rewrite Hk.
Qed.

Lemma C3_created_then_lookup_witness :
  ∃ w', handle_webhook (Sample.accept Sample.carol_created) Sample.request Sample.w0 =
          (Ok success, w') ∧
        get_user_data "user_3" w' =
          (Ok (JObj [("id", JStr "user_3"); ("email", JStr "carol@example.com");
                     ("username", JStr "carol");
                     ("profile_picture_url", JStr "https://img.example.com/3.png")]),
           w').
Proof.
  eapply (C3_created_then_lookup (Sample.accept Sample.carol_created)
            Sample.request Sample.w0 Sample.carol_created).
  - apply constraints_ok_spec. vm_compute. reflexivity.
  - reflexivity.
  - split; [reflexivity|]. eexists. split; reflexivity.
  - reflexivity.
  - do 2 eexists. split; reflexivity.
  - reflexivity.
  - reflexivity.
  - intros r Hr He. apply list_elem_of_In in Hr. simpl in Hr.
    destruct Hr as [<-|[<-|[]]]; discriminate He.
Defined.

(** C2, as the specification states it, fails: a validly signed
    [user.updated] event whose id matches a row, but whose address another
    row holds, is refused by the unique constraint on [email]; the row keeps
    the fields it had. *)
Lemma C2_counterexample_email_taken :
  envelope Sample.alice_takes_bob (JStr "user.updated")
    (Sample.user_object "user_1" "bob@example.com" "alice"
       "https://img.example.com/1.png") ∧
  users Sample.w0 !! 0 = Some Sample.alice ∧
  id Sample.alice = "user_1" ∧
  handle_webhook (Sample.accept Sample.alice_takes_bob) Sample.request Sample.w0 =
    (Raise IntegrityError, Sample.w0) ∧
  email <$> users (handle_webhook (Sample.accept Sample.alice_takes_bob)
                     Sample.request Sample.w0).2 !! 0 =
    Some (Some "alice@example.com").
Proof.
  split_and!; [|reflexivity..].
  split; [reflexivity|]. eexists. split; reflexivity.
Qed.

(** C2, amended.  Take a validly signed [user.updated] event whose id
    matches a row, whose first email address is a string, and whose
    [username] and [profile_image_url] are each a string, [null] or absent.
    If no other row holds the email, the email, username and picture URL of
    that row are overwritten where it sits (the id stays; [null] and absent
    are stored as NULL).  If another row holds the email, the unique
    constraint refuses the commit: the request ends in an [IntegrityError]
    and nothing is written.  Whatever the request, ids stay distinct and
    every id stays where it was, so no row is ever inserted under an id the
    table has, and after any sequence of calls the table holds at most one
    row per id. *)
Theorem C2_update_in_place
    (verify : string -> svix_headers -> result json)
    (json_loads : string -> option json)
    (update_from_pairs : dict -> json -> result dict) request w :
  table_ok (users w) →
  (∀ j u k r e n p,
     verify (body request) (webhook_headers request) = Ok j →
     envelope j (JStr "user.updated") (JObj u) →
     dict_get "id" u = Some (JStr (id r)) →
     users w !! k = Some r →
     first_email u (JStr e) →
     optional_field u "username" n →
     optional_field u "profile_image_url" p →
     let w' := {| users := <[k := {| id := id r; email := Some e; username := n;
                                     profile_picture_url := p |}]> (users w);
                  files := files w |} in
     (email_free (users w) (id r) e →
      handle_webhook verify request w = (Ok success, w')) ∧
     (∀ r', r' ∈ users w → id r' ≠ id r → email r' = Some e →
      handle_webhook verify request w = (Raise IntegrityError, w)) ∧
     (handle_webhook verify request w = (Ok success, w') ∨
      handle_webhook verify request w = (Raise IntegrityError, w))) ∧
  NoDup (id <$> users (handle_webhook verify request w).2) ∧
  (id <$> users w) `prefix_of` (id <$> users (handle_webhook verify request w).2) ∧
  (∀ cs, NoDup (id <$> users (run verify json_loads update_from_pairs cs w))).
Proof.
  intros Hok. split_and!.
  - intros j u k r e n p Hv Henv Hid Hk He Hn Hp w'.
    assert (Hc := handle_webhook_commit verify request w j _ u (id r) e n p
                    Hv Henv eq_refl Hid He Hn Hp).
    simpl in Hc. rewrite (list_find_by_id (users w) k r (proj1 Hok) Hk) in Hc.
    split_and!.
    + intros Hfree. rewrite Hc.
      assert (Hc' := upsert_constraints_ok (users w)
                {| id := id r; email := Some e; username := n;
                   profile_picture_url := p |} Hok).
      simpl in Hc'. rewrite (list_find_by_id (users w) k r (proj1 Hok) Hk) in Hc'.
      rewrite Hc'; [done|]. by intros ? [= <-].
    + intros r' Hr' Hne He'. rewrite Hc.
      by rewrite (constraints_refuse_taken_email (users w) k r _ r' e).
    + rewrite Hc. destruct (constraints_ok _); auto.
  - apply (handle_webhook_table verify request w Hok).
  - apply (handle_webhook_table verify request w Hok).
  - intros cs. apply (run_table verify json_loads update_from_pairs cs w Hok).
Qed.

Lemma C2_update_in_place_witness :
  handle_webhook (Sample.accept Sample.alice_updated) Sample.request Sample.w0 =
    (Ok success,
     {| users := [ {| id := "user_1"; email := Some "alice@example.org";
                      username := Some "alice";
                      profile_picture_url := Some "https://img.example.com/1.png" |};
                   Sample.bob ];
        files := files Sample.w0 |}).
Proof.
  refine (proj1 (proj1 (C2_update_in_place (Sample.accept Sample.alice_updated)
            Sample.loads_sample Sample.no_pairs Sample.request Sample.w0 _)
            Sample.alice_updated _ 0 Sample.alice "alice@example.org"
            (Some "alice") (Some "https://img.example.com/1.png")
            _ _ _ _ _ _ _) _).
  - apply constraints_ok_spec. vm_compute. reflexivity.
  - reflexivity.
  - split; [reflexivity|]. eexists. split; reflexivity.
  - reflexivity.
  - reflexivity.
  - do 2 eexists. split; reflexivity.
  - reflexivity.
  - reflexivity.
  - intros r Hr He. apply list_elem_of_In in Hr. simpl in Hr.
    destruct Hr as [<-|[<-|[]]]; [reflexivity|discriminate He].
Defined.

(** ** Paths *)

Lemma string_app_cons a (s t : string) : String a s +:+ t = String a (s +:+ t).
Proof. reflexivity. Qed.

Lemma string_app_snoc (s : string) c t :
  (s +:+ String c EmptyString) +:+ t = s +:+ String c t.
Proof.
  induction s as [|a s IH]; [done|]. rewrite !string_app_cons. by f_equal.
Qed.

Lemma string_app_empty_r (s : string) : s +:+ EmptyString = s.
Proof.
  induction s as [|a s IH]; [done|]. rewrite string_app_cons. by f_equal.
Qed.

(** A component is read through to the next [/]. *)
Lemma split_slash_component d rest cur :
  no_slash d = true →
  split_slash (d +:+ rest) cur = split_slash rest (cur +:+ d).
Proof.
  revert cur. induction d as [|c d IH]; intros cur Hd.
  - by rewrite string_app_empty_r.
  - simpl in Hd. apply andb_true_iff in Hd as [Hc Hd]. apply negb_true_iff in Hc.
    rewrite string_app_cons. simpl. rewrite Hc, IH by done.
    by rewrite string_app_snoc.
Qed.

(** For a one-component [dir_name] the path of [get_json_file] is
    [games/dir_name/data.json]. *)
Lemma path_parts_component dir_name :
  component dir_name = true →
  path_parts ("./games/" +:+ dir_name +:+ "/data.json") =
    ["games"; dir_name; "data.json"].
Proof.
  intros [Hns Hd]%andb_true_iff.
  unfold path_parts.
  change (split_slash ("./games/" +:+ dir_name +:+ "/data.json") EmptyString)
    with ("." :: "games" :: split_slash (dir_name +:+ "/data.json") EmptyString).
  rewrite (split_slash_component dir_name "/data.json" EmptyString Hns).
  change (EmptyString +:+ dir_name) with dir_name.
  simpl. by rewrite Hd.
Qed.

(** *** The merge *)

Lemma dict_update_is_Some k d other :
  dict_wf other → is_Some (dict_get k d) → is_Some (dict_get k (dict_update d other)).
Proof.
  intros Hwf Hk. rewrite dict_get_update by done.
  destruct (dict_get k other); eauto.
Qed.

(** Files that define no [k] leave [k] as it was. *)
Lemma merge_untouched k (objs : list dict) d :
  Forall dict_wf objs →
  Forall (λ o, dict_get k o = None) objs →
  dict_get k (fold_left dict_update objs d) = dict_get k d.
Proof.
  revert d. induction objs as [|o objs IH]; intros d Hwf Hnone; simpl; [done|].
  apply Forall_cons in Hwf as [Ho Hwf]. apply Forall_cons in Hnone as [Hk Hnone].
  rewrite IH, dict_get_update by done. by rewrite Hk.
Qed.

(** The last file that defines [k] decides it. *)
Lemma merge_last_wins k (os1 os2 : list dict) o v d :
  Forall dict_wf (os1 ++ o :: os2) →
  dict_get k o = Some v →
  Forall (λ o', dict_get k o' = None) os2 →
  dict_get k (fold_left dict_update (os1 ++ o :: os2) d) = Some v.
Proof.
  intros Hwf Hk Hnone.
  apply Forall_app in Hwf as [_ Hwf]. apply Forall_cons in Hwf as [Ho Hwf].
  rewrite fold_left_app. simpl.
  rewrite merge_untouched, dict_get_update by done. by rewrite Hk.
Qed.

Lemma merge_is_Some k (objs : list dict) d :
  Forall dict_wf objs →
  is_Some (dict_get k d) → is_Some (dict_get k (fold_left dict_update objs d)).
Proof.
  revert d. induction objs as [|o objs IH]; intros d Hwf Hk; simpl; [done|].
  apply Forall_cons in Hwf as [Ho Hwf]. auto using dict_update_is_Some.
Qed.

Section Catalogue.

Context (json_loads : string -> option json)
        (update_from_pairs : dict -> json -> result dict).

(** Over files that all parse to objects the loop is the fold of
    [dict_update]. *)
Lemma merge_files_objects json_files objs d w :
  Forall2 (parses_to json_loads) json_files objs →
  merge_files json_loads update_from_pairs json_files d w =
    (Ok (fold_left dict_update objs d), w).
Proof.
  intros H. revert d.
  induction H as [|f o fs os (text & -> & Hload & _) _ IH]; intros d; [done|].
  unfold merge_files in *. simpl.
  unfold bind at 1. unfold bind, lift, loads. simpl. rewrite Hload. simpl.
  apply IH.
Qed.

Lemma parses_to_wf json_files objs :
  Forall2 (parses_to json_loads) json_files objs → Forall dict_wf objs.
Proof.
  induction 1 as [|f o fs os (text & _ & _ & Hwf) _ IH]; constructor; auto.
Qed.

Lemma get_combined_json_objects objs w :
  Forall2 (parses_to json_loads) (games_files w) objs →
  get_combined_json json_loads update_from_pairs w =
    (Ok (JObj (fold_left dict_update objs [("__comment__", JStr "Combined data")])), w).
Proof.
  intros H. unfold get_combined_json, bind at 1, rglob_from.
  unfold games_files in H.
  destruct (resolve (files w) ["games"]); unfold bind;
    by rewrite (merge_files_objects _ objs).
Qed.

End Catalogue.

(** On the documented layout the recursive search finds what the
    one-level pattern finds. *)
Lemma rglob_flat_layout name g :
  flat_layout name g → rglob name g = glob_children name g.
Proof.
  intros (es & -> & Htop & Hsub). simpl. rewrite Htop. simpl.
  induction es as [|[n c] es IH]; simpl; [done|].
  rewrite IH.
  - f_equal. destruct c as [text|sub|content]; simpl; [done| |done].
    assert (∀ m x, (m, x) ∈ sub → ∃ text, x = File text) as Hfiles.
    { eapply Hsub. left. }
    clear -Hfiles. rewrite <- (app_nil_r (option_list _)) at 2. f_equal.
    induction sub as [|[m x] sub IH]; simpl; [done|].
    destruct (Hfiles m x) as [text ->]; [left|]. simpl.
    apply IH. intros m' x' Hin. apply (Hfiles m' x'). by right.
  - simpl in Htop. destruct (String.eqb name n); [done|]. done.
  - intros n' sub' Hin. apply (Hsub n' sub'). by right.
Qed.

(** *** What the recursive search finds *)

Lemma node_nested_ind (P : node → Prop) :
  (∀ text, P (File text)) →
  (∀ es, Forall (λ e, P e.2) es → P (Dir es)) →
  (∀ content, P (Binary content)) →
  ∀ n, P n.
Proof.
  intros Hfile Hdir Hbin. fix IH 1.
  intros [text|es|content]; [apply Hfile| |apply Hbin].
  apply Hdir. induction es as [|[n c] es IHes]; constructor; [apply IH|apply IHes].
Qed.

Lemma entry_elem_of name es x : entry name es = Some x → (name, x) ∈ es.
Proof.
  induction es as [|[n c] es IH]; simpl; [done|].
  destruct (String.eqb_spec name n) as [->|]; [intros [= ->]; left|right; auto].
Qed.

Lemma entry_NoDup name es x :
  NoDup es.*1 → (name, x) ∈ es → entry name es = Some x.
Proof.
  induction es as [|[n c] es IH]; simpl; intros Hnd Hin.
  - by apply elem_of_nil in Hin.
  - apply NoDup_cons in Hnd as [Hn Hnd].
    apply elem_of_cons in Hin as [[= <- <-]|Hin].
    + by rewrite String.eqb_refl.
    + destruct (String.eqb_spec name n) as [->|]; [|auto].
      destruct Hn. apply list_elem_of_fmap. by exists (n, x).
Qed.

(** The search in a directory: its own entry, then each child's. *)
Lemma elem_of_rglob_Dir name es x :
  x ∈ rglob name (Dir es) ↔
  entry name es = Some x ∨ ∃ n c, (n, c) ∈ es ∧ x ∈ rglob name c.
Proof.
  simpl. rewrite elem_of_app. apply Morphisms_Prop.or_iff_morphism.
  - destruct (entry name es); simpl.
    + rewrite list_elem_of_singleton. split; congruence.
    + split; [by intros ?%elem_of_nil|done].
  - induction es as [|[n c] es IH].
    + split; [by intros ?%elem_of_nil|]. by intros (? & ? & ?%elem_of_nil & _).
    + rewrite elem_of_app, IH. split.
      * intros [H|(n' & c' & Hin & H)]; [exists n, c|exists n', c'];
          split; auto; [left|by right].
      * intros (n' & c' & [[= -> ->]|Hin]%elem_of_cons & H); eauto.
Qed.

(** Every [name] below [g], at any depth, is found. *)
Lemma rglob_complete name g dirs x :
  descend g (dirs ++ [name]) = Some x → x ∈ rglob name g.
Proof.
  revert g. induction dirs as [|d dirs IH]; intros [text|es|content] Hx; try done.
  - apply elem_of_rglob_Dir. left. simpl in Hx.
    destruct (entry name es); by simplify_eq/=.
  - apply elem_of_rglob_Dir. right. simpl in Hx.
    destruct (entry d es) as [c|] eqn:He; [|done].
    exists d, c. eauto using entry_elem_of.
Qed.

(** In a tree whose directories list each name once, nothing else is. *)
Lemma rglob_sound name g x :
  node_wf g → x ∈ rglob name g → ∃ dirs, descend g (dirs ++ [name]) = Some x.
Proof.
  revert x. induction g as [text|es IH|content] using node_nested_ind;
    intros x Hwf; [by intros ?%elem_of_nil| |by intros ?%elem_of_nil].
  - inversion_clear Hwf as [| |? Hnd Hsub].
    intros [He|(n & c & Hin & Hx)]%elem_of_rglob_Dir.
    + exists []. simpl. by rewrite He.
    + rewrite Forall_forall in IH, Hsub.
      destruct (IH (n, c) Hin x (Hsub (n, c) Hin) Hx) as [dirs Hd].
      exists (n :: dirs). simpl. by rewrite (entry_NoDup n es c).
Qed.

(** ** The game catalogue *)

(** The look-up of [games/dir_name/data.json] is not refused when
    [dir_name] is one name of at most [NAME_MAX] bytes. *)
Lemma stat_short_component fs dir_name :
  (String.length dir_name ≤ NAME_MAX)%nat →
  stat_name_too_long fs ["games"; dir_name; "data.json"] = false.
Proof.
  intros Hlen. unfold stat_name_too_long. apply orb_false_iff. split.
  - apply Nat.leb_gt. cbn [joined_length String.length].
    unfold PATH_MAX, NAME_MAX in *. lia.
  - apply Nat.ltb_ge in Hlen.
    destruct (trail_after [root fs] (cwd fs)) as [trail|]; [|done].
    destruct trail as [|[text|es|content] up]; try done.
    cbn [name_too_long]. repeat case_match; try reflexivity; exact Hlen.
Qed.

(** C7.  For a [dir_name] longer than a file name can be, the file
    [games/{dir_name}/data.json] does not exist, and the handler does not
    answer 404: [Path.exists] raises the [OSError] of the look-up, which
    leaves the handler (status 500). *)
Theorem C7_long_name_is_not_404 :
  resolve (files Sample.w0)
    (path_parts ("./games/" +:+ MoreFiles.long_name +:+ "/data.json")) = None ∧
  get_json_file Sample.loads_sample MoreFiles.long_name Sample.w0 =
    (Raise OSError, Sample.w0) ∧
  status_of (get_json_file Sample.loads_sample MoreFiles.long_name Sample.w0).1 = 500.
Proof. vm_compute. by split_and!. Qed.

(** X19.  For a [dir_name] that is one path component of at most
    [NAME_MAX] bytes, GET /games/{dir_name} answers with a 404 when
    [games/{dir_name}/data.json] does not exist, and with the parsed
    contents of that file, as they are, when it is a text file that parses;
    the world is left as it was. *)
Theorem X19_get_json_file_found_or_404
    (json_loads : string -> option json) dir_name w :
  component dir_name = true →
  (String.length dir_name ≤ NAME_MAX)%nat →
  path_parts ("./games/" +:+ dir_name +:+ "/data.json") =
    ["games"; dir_name; "data.json"] ∧
  (resolve (files w) ["games"; dir_name; "data.json"] = None →
   get_json_file json_loads dir_name w =
     (Raise (HTTPException 404 "File not found"), w) ∧
   status_of (get_json_file json_loads dir_name w).1 = 404) ∧
  (∀ text j,
     resolve (files w) ["games"; dir_name; "data.json"] = Some (File text) →
     json_loads text = Some j →
     get_json_file json_loads dir_name w = (Ok j, w)) ∧
  (get_json_file json_loads dir_name w).2 = w.
Proof.
  intros Hc Hlen. split_and!.
  - by apply path_parts_component.
  - intros Hnone. unfold get_json_file, bind, path_exists.
    rewrite (path_parts_component dir_name Hc), stat_short_component by done.
    by rewrite Hnone.
  - intros text j Hfile Hj.
    unfold get_json_file, bind, path_exists, open_read, lift, loads.
    rewrite (path_parts_component dir_name Hc), stat_short_component by done.
    rewrite Hfile, bool_decide_eq_true_2 by eauto. simpl.
    rewrite Hfile. simpl. by rewrite Hj.
  - apply get_json_file_frame.
Qed.

Lemma X19_get_json_file_found_or_404_witness :
  get_json_file Sample.loads_sample "alpha" Sample.w0 =
    (Ok (JObj [("title", JStr "Alpha"); ("players", JInt 2)]), Sample.w0) ∧
  get_json_file Sample.loads_sample "gamma" Sample.w0 =
    (Raise (HTTPException 404 "File not found"), Sample.w0).
Proof.
  split.
  - refine (proj1 (proj2 (proj2 (X19_get_json_file_found_or_404
              Sample.loads_sample "alpha" Sample.w0 _ _))) "alpha" _ _ _);
      try reflexivity. unfold NAME_MAX. simpl. lia.
  - refine (proj1 (proj1 (proj2 (X19_get_json_file_found_or_404
              Sample.loads_sample "gamma" Sample.w0 _ _)) _));
      try reflexivity. unfold NAME_MAX. simpl. lia.
Defined.

(** C6, as the specification states it, fails: with a [data.json] directly
    in [games/] the handler merges that file too, while the files that match
    [games/*/data.json] do not include it. *)
Lemma C6_counterexample_top_level_file :
  (get_combined_json Sample.loads_sample Sample.no_pairs Sample.w_top).1 =
    Ok (JObj [("__comment__", JStr "Combined data"); ("motd", JStr "hello");
              ("title", JStr "Alpha"); ("players", JInt 2)]) ∧
  (spec_combined_json Sample.loads_sample Sample.no_pairs Sample.w_top).1 =
    Ok (JObj [("__comment__", JStr "Combined data");
              ("title", JStr "Alpha"); ("players", JInt 2)]).
Proof. split; reflexivity. Qed.

(** C6, amended.  GET /games/ returns the merge of every [data.json] at any
    depth below [games/] (on the documented layout these are the files
    [games/*/data.json]), each parsed as a JSON object: a key reads as in
    the last file, in traversal order, that defines it; the result is seeded
    with the key [__comment__]; with two files that both define [title], the
    returned [title] is the second one's. *)
Theorem C6_combined_last_wins
    (json_loads : string -> option json)
    (update_from_pairs : dict -> json -> result dict) w objs :
  Forall2 (parses_to json_loads) (games_files w) objs →
  ∃ combined,
    get_combined_json json_loads update_from_pairs w = (Ok (JObj combined), w) ∧
    is_Some (dict_get "__comment__" combined) ∧
    (∀ k os1 o os2 v,
       objs = os1 ++ o :: os2 → dict_get k o = Some v →
       Forall (λ o', dict_get k o' = None) os2 →
       dict_get k combined = Some v) ∧
    (∀ k, Forall (λ o, dict_get k o = None) objs →
          dict_get k combined =
            dict_get k [("__comment__", JStr "Combined data")]) ∧
    (∀ o1 o2 v1 v2,
       objs = [o1; o2] → dict_get "title" o1 = Some v1 →
       dict_get "title" o2 = Some v2 → dict_get "title" combined = Some v2) ∧
    (∀ g dirs x,
       resolve (files w) ["games"] = Some g →
       descend g (dirs ++ ["data.json"]) = Some x → x ∈ games_files w) ∧
    (∀ g, resolve (files w) ["games"] = Some g → flat_layout "data.json" g →
          games_files w = glob_children "data.json" g).
Proof.
  intros Hobjs. pose proof (parses_to_wf json_loads _ _ Hobjs) as Hwf.
  eexists. split; [by apply get_combined_json_objects|]. split_and!.
  - by apply merge_is_Some.
  - intros k os1 o os2 v -> Hk Hnone. by apply merge_last_wins.
  - intros k Hnone. by apply merge_untouched.
  - intros o1 o2 v1 v2 -> _ Hk. by apply (merge_last_wins "title" [o1] []).
  - intros g dirs x Hg Hx. unfold games_files. rewrite Hg.
    by apply (rglob_complete _ _ dirs).
  - intros g Hg Hflat. unfold games_files. rewrite Hg. by apply rglob_flat_layout.
Qed.

Lemma C6_combined_last_wins_witness :
  ∃ combined,
    get_combined_json Sample.loads_sample Sample.no_pairs Sample.w0 =
      (Ok (JObj combined), Sample.w0) ∧
    dict_get "title" combined = Some (JStr "Beta").
Proof.
  destruct (C6_combined_last_wins Sample.loads_sample Sample.no_pairs Sample.w0
              [[("title", JStr "Alpha"); ("players", JInt 2)];
               [("title", JStr "Beta"); ("__comment__", JStr "beta notes")]])
    as (combined & Hget & _ & _ & _ & Htitle & _).
  - repeat constructor; eexists; (split_and!; [reflexivity|reflexivity|]);
      apply (bool_decide_eq_true_1 _); vm_compute; reflexivity.
  - exists combined. split; [exact Hget|].
    eapply (Htitle _ _ (JStr "Alpha") (JStr "Beta")); reflexivity.
Defined.

(** C10.  The marker [__comment__] is in the dict before the merge starts:
    the key is always in the returned object; it reads ["Combined data"]
    when no file defines it, and otherwise the value of the last file, in
    traversal order, that defines it. *)
Theorem C10_marker_overridden
    (json_loads : string -> option json)
    (update_from_pairs : dict -> json -> result dict) w objs :
  Forall2 (parses_to json_loads) (games_files w) objs →
  ∃ combined,
    get_combined_json json_loads update_from_pairs w = (Ok (JObj combined), w) ∧
    is_Some (dict_get "__comment__" combined) ∧
    (Forall (λ o, dict_get "__comment__" o = None) objs →
     dict_get "__comment__" combined = Some (JStr "Combined data")) ∧
    (∀ os1 o os2 v,
       objs = os1 ++ o :: os2 → dict_get "__comment__" o = Some v →
       Forall (λ o', dict_get "__comment__" o' = None) os2 →
       dict_get "__comment__" combined = Some v).
Proof.
  intros Hobjs. pose proof (parses_to_wf json_loads _ _ Hobjs) as Hwf.
  eexists. split; [by apply get_combined_json_objects|]. split_and!.
  - by apply merge_is_Some.
  - intros Hnone. by rewrite merge_untouched.
  - intros os1 o os2 v -> Hk Hnone. by apply merge_last_wins.
Qed.

Lemma C10_marker_overridden_witness :
  ∃ combined,
    get_combined_json Sample.loads_sample Sample.no_pairs Sample.w0 =
      (Ok (JObj combined), Sample.w0) ∧
    dict_get "__comment__" combined = Some (JStr "beta notes").
Proof.
  destruct (C10_marker_overridden Sample.loads_sample Sample.no_pairs Sample.w0
              [[("title", JStr "Alpha"); ("players", JInt 2)];
               [("title", JStr "Beta"); ("__comment__", JStr "beta notes")]])
    as (combined & Hget & _ & _ & Hlast).
  - repeat constructor; eexists; (split_and!; [reflexivity|reflexivity|]);
      apply (bool_decide_eq_true_1 _); vm_compute; reflexivity.
  - exists combined. split; [exact Hget|].
    apply (Hlast [[("title", JStr "Alpha"); ("players", JInt 2)]]
             [("title", JStr "Beta"); ("__comment__", JStr "beta notes")] []);
      [reflexivity|reflexivity|constructor].
Defined.

(** ** Further properties of the webhook handler *)

(** X1.  A webhook request that ends in an exception, whatever it is, has
    written nothing: the world after it is the world before it. *)
Theorem X1_webhook_error_writes_nothing
    (verify : string -> svix_headers -> result json) request w e :
  (handle_webhook verify request w).1 = Raise e →
  (handle_webhook verify request w).2 = w.
Proof.
  destruct (handle_webhook verify request w) as [r w'] eqn:H. simpl.
  intros ->. by apply handle_webhook_error_frame in H.
Qed.

Lemma X1_webhook_error_writes_nothing_witness :
  (handle_webhook (Sample.accept Sample.mallory_created)
     Sample.request Sample.w0).2 = Sample.w0.
Proof.
  apply (X1_webhook_error_writes_nothing _ _ _ IntegrityError). reflexivity.
Defined.

(** X2.  Only [WebhookVerificationError] is caught: any other exception of
    the verifier leaves the handler as it is, with nothing written. *)
Theorem X2_verifier_exception_propagates
    (verify : string -> svix_headers -> result json) request w e :
  verify (body request) (webhook_headers request) = Raise e →
  e ≠ WebhookVerificationError →
  handle_webhook verify request w = (Raise e, w).
Proof.
  intros Hv He. unfold handle_webhook, bind at 1. rewrite Hv.
  by destruct e.
Qed.

Lemma X2_verifier_exception_propagates_witness :
  handle_webhook (λ _ _, Raise (OtherError "RuntimeError")) Sample.request Sample.w0 =
    (Raise (OtherError "RuntimeError"), Sample.w0).
Proof.
  apply (X2_verifier_exception_propagates _ Sample.request Sample.w0
           (OtherError "RuntimeError")); [reflexivity|discriminate].
Defined.

(** X3.  Once the signature has verified, the handler has no rejection of
    its own: the request is answered with [{"status": "success"}], or it
    ends in an exception that is not an [HTTPException] (status 500) with
    nothing written. *)
Theorem X3_accepted_payload_200_or_500
    (verify : string -> svix_headers -> result json) request w j :
  verify (body request) (webhook_headers request) = Ok j →
  (∃ w', handle_webhook verify request w = (Ok success, w')) ∨
  (∃ e, handle_webhook verify request w = (Raise e, w) ∧
        status_of (Raise e : result json) = 500).
Proof.
  intros Hv.
  unfold handle_webhook, bind, lift, ret, query_first_by_id, commit, flush.
  rewrite Hv. unfold py_get, py_item, py_item0, col_value.
  repeat (case_match; simplify_eq/=); eauto.
Qed.

Lemma X3_accepted_payload_200_or_500_witness :
  (∃ w', handle_webhook (Sample.accept Sample.carol_created)
           Sample.request Sample.w0 = (Ok success, w')) ∨
  (∃ e, handle_webhook (Sample.accept Sample.carol_created)
          Sample.request Sample.w0 = (Raise e, Sample.w0) ∧
        status_of (Raise e : result json) = 500).
Proof.
  apply (X3_accepted_payload_200_or_500 _ Sample.request Sample.w0
           Sample.carol_created). reflexivity.
Defined.

(** X4.  [user.created] and [user.updated] are one branch: two accepted
    events of either type with the same [data.object] have the same answer
    and the same effect. *)
Theorem X4_created_and_updated_alike
    (verify : string -> svix_headers -> result json)
    request1 request2 w j1 j2 t1 t2 user_data :
  verify (body request1) (webhook_headers request1) = Ok j1 →
  verify (body request2) (webhook_headers request2) = Ok j2 →
  envelope j1 t1 user_data →
  envelope j2 t2 user_data →
  is_user_event t1 = true →
  is_user_event t2 = true →
  handle_webhook verify request1 w = handle_webhook verify request2 w.
Proof.
  intros Hv1 Hv2 He1 He2 Ht1 Ht2.
  rewrite (handle_webhook_accepted verify request1 w j1 t1 user_data Hv1 He1).
  rewrite (handle_webhook_accepted verify request2 w j2 t2 user_data Hv2 He2).
  by rewrite Ht1, Ht2.
Qed.

Lemma X4_created_and_updated_alike_witness :
  handle_webhook More.verify_by_body More.request_created Sample.w0 =
  handle_webhook More.verify_by_body More.request_updated Sample.w0.
Proof.
  apply (X4_created_and_updated_alike More.verify_by_body
           More.request_created More.request_updated Sample.w0
           (Sample.event "user.created" More.carol_object)
           (Sample.event "user.updated" More.carol_object)
           (JStr "user.created") (JStr "user.updated") More.carol_object);
    try reflexivity.
  - split; [reflexivity|]. eexists. split; reflexivity.
  - split; [reflexivity|]. eexists. split; reflexivity.
Defined.

(** X5.  The upsert is idempotent: a user event that has been processed
    with success, delivered again, is answered with success again and
    changes nothing. *)
Theorem X5_replay_changes_nothing
    (verify : string -> svix_headers -> result json) request w j t u i e n p w' :
  verify (body request) (webhook_headers request) = Ok j →
  envelope j t (JObj u) →
  is_user_event t = true →
  dict_get "id" u = Some (JStr i) →
  first_email u (JStr e) →
  optional_field u "username" n →
  optional_field u "profile_image_url" p →
  handle_webhook verify request w = (Ok success, w') →
  handle_webhook verify request w' = (Ok success, w').
Proof.
  intros Hv Henv Ht Hid He Hn Hp.
  set (row := {| id := i; email := Some e; username := n;
                 profile_picture_url := p |}).
  rewrite !(handle_webhook_commit verify request _ j t u i e n p Hv Henv Ht Hid He Hn Hp).
  fold row. destruct (list_find_upserted (users w) row) as [k Hk].
  change (id row) with i in Hk.
  destruct (constraints_ok _) eqn:Hc; [|done]. intros [= <-]. simpl.
  rewrite Hk.
  assert (<[k := row]> match list_find (λ r, id r = i) (users w) with
                       | Some (k0, _) => <[k0 := row]> (users w)
                       | None => users w ++ [row]
                       end
          = match list_find (λ r, id r = i) (users w) with
            | Some (k0, _) => <[k0 := row]> (users w)
            | None => users w ++ [row]
            end) as ->.
  { apply list_insert_id. by apply list_find_Some in Hk as (? & _). }
  by rewrite Hc.
Qed.

Lemma X5_replay_changes_nothing_witness :
  handle_webhook (Sample.accept Sample.carol_created) Sample.request
    {| users := [Sample.alice; Sample.bob; More.carol]; files := Sample.disk |} =
    (Ok success,
     {| users := [Sample.alice; Sample.bob; More.carol]; files := Sample.disk |}).
Proof.
  eapply (X5_replay_changes_nothing (Sample.accept Sample.carol_created)
            Sample.request Sample.w0 Sample.carol_created (JStr "user.created")
            _ "user_3" "carol@example.com" (Some "carol")
            (Some "https://img.example.com/3.png")).
  - reflexivity.
  - split; [reflexivity|]. eexists. split; reflexivity.
  - reflexivity.
  - reflexivity.
  - do 2 eexists. split; reflexivity.
  - reflexivity.
  - reflexivity.
  - reflexivity.
Defined.

(** X6.  A user event (of either type) under an id the table does not have
    appends one row, every earlier row staying where it was, when no row
    holds its email; when some row does, the commit is refused with an
    [IntegrityError] and nothing is written. *)
Theorem X6_unknown_id_inserts
    (verify : string -> svix_headers -> result json) request w j t u i e n p :
  table_ok (users w) →
  verify (body request) (webhook_headers request) = Ok j →
  envelope j t (JObj u) →
  is_user_event t = true →
  dict_get "id" u = Some (JStr i) →
  first_email u (JStr e) →
  optional_field u "username" n →
  optional_field u "profile_image_url" p →
  i ∉ id <$> users w →
  (Some e ∉ email <$> users w →
   handle_webhook verify request w =
     (Ok success,
      {| users := users w ++ [{| id := i; email := Some e; username := n;
                                 profile_picture_url := p |}];
         files := files w |})) ∧
  (Some e ∈ email <$> users w →
   handle_webhook verify request w = (Raise IntegrityError, w)).
Proof.
  intros Hok Hv Henv Ht Hid He Hn Hp Hnew.
  set (row := {| id := i; email := Some e; username := n;
                 profile_picture_url := p |}).
  rewrite (handle_webhook_commit verify request w j t u i e n p Hv Henv Ht Hid He Hn Hp).
  fold row. apply list_find_by_id_None in Hnew. rewrite Hnew. split.
  - intros Hfree.
    assert (Hc := upsert_constraints_ok (users w) row Hok).
    change (id row) with i in Hc. rewrite Hnew in Hc. rewrite Hc; [done|].
    intros ? [= <-] r Hr Hre. destruct Hfree.
    apply list_elem_of_fmap. eauto.
  - intros (r & Hre & Hr)%list_elem_of_fmap.
    destruct (constraints_ok _) eqn:Hc; [|done].
    apply constraints_ok_spec in Hc as [_ Hc].
    rewrite omap_app in Hc. apply NoDup_app in Hc as (_ & Hc & _).
    destruct (Hc e).
    + apply list_elem_of_omap. eauto.
    + simpl. left.
Qed.

Lemma X6_unknown_id_inserts_witness :
  handle_webhook (Sample.accept Sample.carol_created) Sample.request Sample.w0 =
    (Ok success,
     {| users := [Sample.alice; Sample.bob; More.carol]; files := Sample.disk |}).
Proof.
  refine (proj1 (X6_unknown_id_inserts (Sample.accept Sample.carol_created)
            Sample.request Sample.w0 Sample.carol_created (JStr "user.created")
            _ "user_3" "carol@example.com" (Some "carol")
            (Some "https://img.example.com/3.png") _ _ _ _ _ _ _ _ _) _).
  - apply constraints_ok_spec. vm_compute. reflexivity.
  - reflexivity.
  - split; [reflexivity|]. eexists. split; reflexivity.
  - reflexivity.
  - reflexivity.
  - do 2 eexists. split; reflexivity.
  - reflexivity.
  - reflexivity.
  - intros H. apply list_elem_of_In in H. simpl in H.
    destruct H as [H|[H|[]]]; discriminate H.
  - intros H. apply list_elem_of_In in H. simpl in H.
    destruct H as [H|[H|[]]]; discriminate H.
Defined.

(** X7.  Round trip of the upsert, for either event type: after a user
    event has been processed with success, the lookup of its id returns the
    id and email of the event, and its username and picture URL, or [null]
    for each of the two that the event leaves out. *)
Theorem X7_upsert_then_lookup
    (verify : string -> svix_headers -> result json) request w j t u i e n p w' :
  verify (body request) (webhook_headers request) = Ok j →
  envelope j t (JObj u) →
  is_user_event t = true →
  dict_get "id" u = Some (JStr i) →
  first_email u (JStr e) →
  optional_field u "username" n →
  optional_field u "profile_image_url" p →
  handle_webhook verify request w = (Ok success, w') →
  get_user_data i w' =
    (Ok (JObj [("id", JStr i); ("email", JStr e);
               ("username", json_of_col n);
               ("profile_picture_url", json_of_col p)]), w').
Proof.
  intros Hv Henv Ht Hid He Hn Hp.
  set (row := {| id := i; email := Some e; username := n;
                 profile_picture_url := p |}).
  rewrite (handle_webhook_commit verify request w j t u i e n p Hv Henv Ht Hid He Hn Hp).
  fold row. destruct (list_find_upserted (users w) row) as [k Hk].
  change (id row) with i in Hk.
  destruct (constraints_ok _); [|done]. intros [= <-].
  unfold get_user_data, bind, query_first_by_id. simpl. by rewrite Hk.
Qed.

Lemma X7_upsert_then_lookup_witness :
  get_user_data "user_2"
    {| users := [Sample.alice;
                 {| id := "user_2"; email := Some "bob@example.org";
                    username := None; profile_picture_url := None |}];
       files := Sample.disk |} =
    (Ok (JObj [("id", JStr "user_2"); ("email", JStr "bob@example.org");
               ("username", JNull); ("profile_picture_url", JNull)]),
     {| users := [Sample.alice;
                  {| id := "user_2"; email := Some "bob@example.org";
                     username := None; profile_picture_url := None |}];
        files := Sample.disk |}).
Proof.
  eapply (X7_upsert_then_lookup (Sample.accept More.bob_updated)
            Sample.request Sample.w0 More.bob_updated (JStr "user.updated")
            _ "user_2" "bob@example.org" None None).
  - reflexivity.
  - split; [reflexivity|]. eexists. split; reflexivity.
  - reflexivity.
  - reflexivity.
  - do 2 eexists. split; reflexivity.
  - reflexivity.
  - reflexivity.
  - reflexivity.
Defined.

(** Rewriting or appending a row that [P] rejects does not change what the
    query for [P] finds. *)
Lemma list_find_insert_other {A} (P : A → Prop) `{!∀ x, Decision (P x)}
    (l : list A) k x y :
  l !! k = Some x → ¬ P x → ¬ P y →
  snd <$> list_find P (<[k := y]> l) = snd <$> list_find P l.
Proof.
  revert k. induction l as [|a l IH]; intros [|k] Hk Hx Hy; simplify_eq/=.
  - by rewrite !decide_False by done.
  - destruct (decide (P a)); [done|].
    specialize (IH k Hk Hx Hy).
    destruct (list_find P (<[k:=y]> l)) as [[]|], (list_find P l) as [[]|];
      by simplify_eq/=.
Qed.

Lemma list_find_snoc_other {A} (P : A → Prop) `{!∀ x, Decision (P x)}
    (l : list A) y :
  ¬ P y → snd <$> list_find P (l ++ [y]) = snd <$> list_find P l.
Proof.
  intros Hy. destruct (list_find P l) as [[k x]|] eqn:Hfind.
  - by rewrite (list_find_app_l P l [y] k x).
  - rewrite list_find_app_r by done. simpl. by rewrite decide_False.
Qed.

(** The answer of the lookup depends on the row found only. *)
Lemma get_user_data_result user_id w :
  (get_user_data user_id w).1 =
    match snd <$> list_find (λ u, id u = user_id) (users w) with
    | Some u => Ok (user_json u)
    | None => Raise (HTTPException 404 "User not found")
    end.
Proof.
  unfold get_user_data, bind, query_first_by_id.
  by destruct (list_find _ _) as [[]|].
Qed.

(** What an accepted event with the id [i] can do to the table: nothing,
    rewrite the row keyed [i], or append a row keyed [i]. *)
Lemma handle_webhook_world_id
    (verify : string -> svix_headers -> result json) request w j t u i :
  verify (body request) (webhook_headers request) = Ok j →
  envelope j t (JObj u) →
  dict_get "id" u = Some (JStr i) →
  (handle_webhook verify request w).2 = w ∨
  (∃ k r r', users w !! k = Some r ∧ id r = i ∧ id r' = i ∧
             users (handle_webhook verify request w).2 = <[k := r']> (users w)) ∨
  (∃ r', id r' = i ∧
         users (handle_webhook verify request w).2 = users w ++ [r']).
Proof.
  intros Hv Henv Hid.
  rewrite (handle_webhook_accepted verify request w j t (JObj u) Hv Henv).
  unfold bind, lift, ret, query_first_by_id, commit, flush. simpl. rewrite Hid. simpl.
  repeat (case_match; simplify_eq/=); auto.
  - right. left.
    match goal with H : list_find _ _ = Some _ |- _ =>
      apply list_find_Some in H as (Hk & Hr & _) end.
    do 3 eexists. split_and!; [eassumption|done| |reflexivity]. done.
  - right. right. eexists. split; [|reflexivity]. done.
Qed.

(** X8.  An accepted event touches no user but its own: the lookup of any
    other id answers after the event what it answered before. *)
Theorem X8_other_users_untouched
    (verify : string -> svix_headers -> result json) request w j t u i user_id :
  verify (body request) (webhook_headers request) = Ok j →
  envelope j t (JObj u) →
  dict_get "id" u = Some (JStr i) →
  user_id ≠ i →
  (get_user_data user_id (handle_webhook verify request w).2).1 =
  (get_user_data user_id w).1.
Proof.
  intros Hv Henv Hid Hne. rewrite !get_user_data_result.
  destruct (handle_webhook_world_id verify request w j t u i Hv Henv Hid)
    as [->|[(k & r & r' & Hk & Hr & Hr' & ->)|(r' & Hr' & ->)]]; [done|..].
  - rewrite (list_find_insert_other _ _ k r r'); [done|done|..]; congruence.
  - rewrite list_find_snoc_other; [done|congruence].
Qed.

Lemma X8_other_users_untouched_witness :
  (get_user_data "user_2"
     (handle_webhook (Sample.accept Sample.alice_updated)
        Sample.request Sample.w0).2).1 =
  (get_user_data "user_2" Sample.w0).1.
Proof.
  eapply (X8_other_users_untouched (Sample.accept Sample.alice_updated)
            Sample.request Sample.w0 Sample.alice_updated (JStr "user.updated")
            _ "user_1" "user_2").
  - reflexivity.
  - split; [reflexivity|]. eexists. split; reflexivity.
  - reflexivity.
  - discriminate.
Defined.

(** ** Runs of calls *)

Section Runs.

Context (verify : string -> svix_headers -> result json)
        (json_loads : string -> option json)
        (update_from_pairs : dict -> json -> result dict).

Lemma serve_files c w :
  files (serve verify json_loads update_from_pairs c w).2 = files w.
Proof.
  destruct c; simpl.
  - apply handle_webhook_files.
  - by rewrite get_combined_json_frame.
  - by rewrite get_json_file_frame.
  - by rewrite get_user_data_frame.
Qed.

Lemma serve_read c w :
  is_read c = true → (serve verify json_loads update_from_pairs c w).2 = w.
Proof.
  destruct c; simpl; [done|intros _..].
  - apply get_combined_json_frame.
  - apply get_json_file_frame.
  - apply get_user_data_frame.
Qed.

End Runs.

(** X9.  No call writes the file system: after any sequence of calls to the
    four endpoints the files are what they were. *)
Theorem X9_run_never_writes_files
    (verify : string -> svix_headers -> result json)
    (json_loads : string -> option json)
    (update_from_pairs : dict -> json -> result dict) cs w :
  files (run verify json_loads update_from_pairs cs w) = files w.
Proof.
  unfold run. revert w. induction cs as [|c cs IH]; intros w; simpl; [done|].
  by rewrite IH, serve_files.
Qed.

(** X10.  The three GET endpoints only read: a sequence of calls without a
    POST /webhook leaves the users table and the files as they were,
    whatever the calls answer (a 404, a file that does not parse). *)
Theorem X10_reads_change_nothing
    (verify : string -> svix_headers -> result json)
    (json_loads : string -> option json)
    (update_from_pairs : dict -> json -> result dict) cs w :
  forallb is_read cs = true →
  run verify json_loads update_from_pairs cs w = w.
Proof.
  unfold run. revert w. induction cs as [|c cs IH]; intros w; simpl; [done|].
  intros [Hc Hcs]%andb_true_iff. by rewrite serve_read, IH.
Qed.

Lemma X10_reads_change_nothing_witness :
  run Sample.reject Sample.loads_sample Sample.no_pairs
    [GetGames; GetGame "gamma"; GetUserData "user_1"; GetGame "alpha"]
    Sample.w0 = Sample.w0.
Proof.
  apply (X10_reads_change_nothing Sample.reject Sample.loads_sample
           Sample.no_pairs). reflexivity.
Defined.

(** X11.  No row is ever deleted or moved: after any sequence of calls the
    ids that the table had are still there, in the same places, in front of
    the ids that were added. *)
Theorem X11_rows_never_deleted
    (verify : string -> svix_headers -> result json)
    (json_loads : string -> option json)
    (update_from_pairs : dict -> json -> result dict) cs w :
  table_ok (users w) →
  (id <$> users w) `prefix_of`
    (id <$> users (run verify json_loads update_from_pairs cs w)) ∧
  (length (users w) ≤
     length (users (run verify json_loads update_from_pairs cs w)))%nat.
Proof.
  intros Hok.
  assert ((id <$> users w) `prefix_of`
            (id <$> users (run verify json_loads update_from_pairs cs w))) as Hp.
  { unfold run. revert w Hok.
    induction cs as [|c cs IH]; intros w Hok; simpl; [done|].
    destruct (serve_table verify json_loads update_from_pairs c w Hok) as [Hok' Hp].
    etrans; [exact Hp|]. by apply IH. }
  split; [done|]. apply prefix_length in Hp. by rewrite !length_fmap in Hp.
Qed.

Lemma X11_rows_never_deleted_witness :
  (id <$> users Sample.w0) `prefix_of`
    (id <$> users (run (Sample.accept Sample.carol_created) Sample.loads_sample
                     Sample.no_pairs
                     [PostWebhook Sample.request; GetUserData "user_3"] Sample.w0)) ∧
  (length (users Sample.w0) ≤
     length (users (run (Sample.accept Sample.carol_created) Sample.loads_sample
                      Sample.no_pairs
                      [PostWebhook Sample.request; GetUserData "user_3"] Sample.w0)))%nat.
Proof.
  apply (X11_rows_never_deleted (Sample.accept Sample.carol_created)
           Sample.loads_sample Sample.no_pairs
           [PostWebhook Sample.request; GetUserData "user_3"] Sample.w0).
  apply constraints_ok_spec. vm_compute. reflexivity.
Defined.

(** X12.  The lookup never fails on the server side: it answers 200 when
    some row has the id and 404 when none has, for every table. *)
Theorem X12_user_lookup_200_or_404 w user_id :
  (user_id ∈ id <$> users w → status_of (get_user_data user_id w).1 = 200) ∧
  (user_id ∉ id <$> users w → status_of (get_user_data user_id w).1 = 404).
Proof.
  rewrite get_user_data_result. split; intros Hin.
  - destruct (list_find _ _) as [[k r]|] eqn:Hfind; [done|].
    by apply list_find_by_id_None in Hfind.
  - apply list_find_by_id_None in Hin. by rewrite Hin.
Qed.

Lemma X12_user_lookup_200_or_404_witness :
  status_of (get_user_data "user_1" Sample.w0).1 = 200 ∧
  status_of (get_user_data "user_7" Sample.w0).1 = 404.
Proof.
  split.
  - apply (proj1 (X12_user_lookup_200_or_404 Sample.w0 "user_1")).
    apply list_elem_of_In. simpl. auto.
  - apply (proj2 (X12_user_lookup_200_or_404 Sample.w0 "user_7")).
    intros H. apply list_elem_of_In in H. simpl in H.
    destruct H as [H|[H|[]]]; discriminate H.
Defined.

(** ** Further properties of the game catalogue *)

(** X13.  GET /games/{dir_name} answers 404 only when the path does not
    exist: for a [dir_name] of one component of at most [NAME_MAX] bytes, a
    [data.json] whose text is not JSON ends in a [JSONDecodeError], one
    whose bytes are not text in a [UnicodeDecodeError], one that is a
    directory in an [IsADirectoryError] (status 500 all three), and nothing
    is written. *)
Theorem X13_get_json_file_unreadable
    (json_loads : string -> option json) dir_name w :
  component dir_name = true →
  (String.length dir_name ≤ NAME_MAX)%nat →
  (∀ text,
     resolve (files w) ["games"; dir_name; "data.json"] = Some (File text) →
     json_loads text = None →
     get_json_file json_loads dir_name w = (Raise JSONDecodeError, w)) ∧
  (∀ content,
     resolve (files w) ["games"; dir_name; "data.json"] = Some (Binary content) →
     get_json_file json_loads dir_name w = (Raise UnicodeDecodeError, w)) ∧
  (∀ es,
     resolve (files w) ["games"; dir_name; "data.json"] = Some (Dir es) →
     get_json_file json_loads dir_name w = (Raise IsADirectoryError, w)).
Proof.
  intros Hc Hlen.
  assert (∀ x, resolve (files w) ["games"; dir_name; "data.json"] = Some x →
               get_json_file json_loads dir_name w =
                 (data <- lift (read_node x) ;; lift (loads json_loads data)) w)
    as Hopen.
  { intros x Hx. unfold get_json_file, bind, path_exists, open_read, lift.
    rewrite (path_parts_component dir_name Hc), stat_short_component by done.
    rewrite Hx, bool_decide_eq_true_2 by eauto. simpl. by rewrite Hx. }
  split_and!.
  - intros text Hfile Hj. rewrite (Hopen _ Hfile).
    unfold bind, lift, loads. simpl. by rewrite Hj.
  - intros content Hbin. by rewrite (Hopen _ Hbin).
  - intros es Hdir. by rewrite (Hopen _ Hdir).
Qed.

Lemma X13_get_json_file_unreadable_witness :
  get_json_file Sample.loads_sample "beta" MoreFiles.w_bad =
    (Raise JSONDecodeError, MoreFiles.w_bad) ∧
  get_json_file Sample.loads_sample "delta" MoreFiles.w_bad =
    (Raise UnicodeDecodeError, MoreFiles.w_bad) ∧
  get_json_file Sample.loads_sample "gamma" MoreFiles.w_bad =
    (Raise IsADirectoryError, MoreFiles.w_bad).
Proof.
  split_and!.
  - refine (proj1 (X13_get_json_file_unreadable Sample.loads_sample "beta"
                     MoreFiles.w_bad _ _) "not json" _ _);
      try reflexivity. unfold NAME_MAX. simpl. lia.
  - refine (proj1 (proj2 (X13_get_json_file_unreadable Sample.loads_sample "delta"
                     MoreFiles.w_bad _ _)) MoreFiles.not_text _);
      try reflexivity. unfold NAME_MAX. simpl. lia.
  - refine (proj2 (proj2 (X13_get_json_file_unreadable Sample.loads_sample "gamma"
                     MoreFiles.w_bad _ _)) [] _);
      try reflexivity. unfold NAME_MAX. simpl. lia.
Defined.

Section CatalogueErrors.

Context (json_loads : string -> option json)
        (update_from_pairs : dict -> json -> result dict).

(** The loop over files that parse to objects, followed by more files. *)
Lemma merge_files_app_objects fs1 objs rest d w :
  Forall2 (parses_to json_loads) fs1 objs →
  merge_files json_loads update_from_pairs (fs1 ++ rest) d w =
  merge_files json_loads update_from_pairs rest (fold_left dict_update objs d) w.
Proof.
  intros H. revert d.
  induction H as [|f o fs os (text & -> & Hload & _) _ IH]; intros d; [done|].
  unfold merge_files in *. simpl.
  unfold bind at 1. unfold bind, lift, loads. simpl. rewrite Hload. simpl.
  apply IH.
Qed.

End CatalogueErrors.

(** X14.  GET /games/ returns no partial merge: when the files before it
    parse to objects and one [data.json] has text that is not JSON, the
    request ends in a [JSONDecodeError]; when its bytes are not text, in a
    [UnicodeDecodeError]; when it is a directory, in an [IsADirectoryError]
    (status 500 all three), whatever the files after it hold, and nothing is
    written. *)
Theorem X14_combined_fails_on_bad_file
    (json_loads : string -> option json)
    (update_from_pairs : dict -> json -> result dict) w fs1 objs bad fs2 :
  games_files w = fs1 ++ bad :: fs2 →
  Forall2 (parses_to json_loads) fs1 objs →
  (∀ text, bad = File text → json_loads text = None →
     get_combined_json json_loads update_from_pairs w = (Raise JSONDecodeError, w) ∧
     status_of (get_combined_json json_loads update_from_pairs w).1 = 500) ∧
  (∀ content, bad = Binary content →
     get_combined_json json_loads update_from_pairs w = (Raise UnicodeDecodeError, w) ∧
     status_of (get_combined_json json_loads update_from_pairs w).1 = 500) ∧
  (∀ es, bad = Dir es →
     get_combined_json json_loads update_from_pairs w = (Raise IsADirectoryError, w) ∧
     status_of (get_combined_json json_loads update_from_pairs w).1 = 500).
Proof.
  intros Hfiles Hobjs.
  assert (get_combined_json json_loads update_from_pairs w =
            (combined_data <-
               merge_files json_loads update_from_pairs (bad :: fs2)
                 (fold_left dict_update objs [("__comment__", JStr "Combined data")]) ;;
             ret (JObj combined_data)) w) as ->.
  { unfold get_combined_json, bind at 1, rglob_from.
    unfold games_files in Hfiles.
    destruct (resolve (files w) ["games"]) as [g|]; [|by destruct fs1].
    rewrite Hfiles. unfold bind.
    by rewrite (merge_files_app_objects _ _ fs1 objs). }
  split_and!.
  - intros text -> Hbad. unfold merge_files. simpl.
    unfold bind, lift, loads. simpl. by rewrite Hbad.
  - by intros content ->.
  - by intros es ->.
Qed.

Lemma X14_combined_fails_on_bad_file_witness :
  get_combined_json Sample.loads_sample Sample.no_pairs MoreFiles.w_bad =
    (Raise JSONDecodeError, MoreFiles.w_bad) ∧
  status_of (get_combined_json Sample.loads_sample Sample.no_pairs
               MoreFiles.w_bad).1 = 500.
Proof.
  refine (proj1 (X14_combined_fails_on_bad_file Sample.loads_sample Sample.no_pairs
           MoreFiles.w_bad [File "alpha"]
           [[("title", JStr "Alpha"); ("players", JInt 2)]]
           (File "not json") [Dir []; Binary MoreFiles.not_text] _ _)
           "not json" _ _).
  - reflexivity.
  - repeat constructor. eexists. split_and!; [reflexivity|reflexivity|].
    apply (bool_decide_eq_true_1 _). vm_compute. reflexivity.
  - reflexivity.
  - reflexivity.
Defined.

(** X15.  In a tree whose directories list each name once, the recursive
    search from a directory finds exactly the entries called [name] at the
    end of a chain of subdirectories of any length, the empty chain
    included. *)
Theorem X15_rglob_exact name g x :
  node_wf g →
  x ∈ rglob name g ↔ ∃ dirs, descend g (dirs ++ [name]) = Some x.
Proof.
  intros Hwf. split.
  - by apply rglob_sound.
  - intros [dirs Hd]. by apply (rglob_complete _ _ dirs).
Qed.

Lemma X15_rglob_exact_witness :
  File "beta" ∈ rglob "data.json" Sample.games ↔
  ∃ dirs, descend Sample.games (dirs ++ ["data.json"]) = Some (File "beta").
Proof.
  apply (X15_rglob_exact "data.json" Sample.games (File "beta")).
  constructor.
  - apply (bool_decide_eq_true_1 _). vm_compute. reflexivity.
  - repeat constructor; simpl;
      (apply (bool_decide_eq_true_1 _); vm_compute; reflexivity).
Defined.

(** *** Path resolution, step by step *)

Lemma walk_trail_after trail parts :
  walk trail parts = trail_after trail parts ≫= head.
Proof.
  revert trail. induction parts as [|p ps IH]; intros trail; simpl; [done|].
  destruct trail as [|[text|es|content] up]; try done.
  destruct (String.eqb p ".."); [apply IH|].
  destruct (entry p es); [apply IH|done].
Qed.

Lemma trail_after_app trail parts1 parts2 :
  trail_after trail (parts1 ++ parts2) =
  trail_after trail parts1 ≫= λ trail', trail_after trail' parts2.
Proof.
  revert trail. induction parts1 as [|p ps IH]; intros trail; simpl; [done|].
  destruct trail as [|[text|es|content] up]; try done.
  destruct (String.eqb p ".."); [apply IH|].
  destruct (entry p es); [apply IH|done].
Qed.

(** Resolution of a path is resolution of its parts from where the working
    directory is. *)
Lemma resolve_trail fs parts :
  resolve fs parts =
  trail_after [root fs] (cwd fs) ≫= λ trail, walk trail parts.
Proof.
  unfold resolve. rewrite walk_trail_after, trail_after_app.
  destruct (trail_after [root fs] (cwd fs)) as [trail|]; simpl; [|done].
  by rewrite walk_trail_after.
Qed.

(** X16.  [dir_name] is not confined to [games/]: for [..] the path is
    [games/../data.json], which, [games] being a directory, is the
    [data.json] of the working directory; the handler serves that file. *)
Theorem X16_dotdot_leaves_games (json_loads : string -> option json) w es :
  resolve (files w) ["games"] = Some (Dir es) →
  resolve (files w) (path_parts ("./games/" +:+ ".." +:+ "/data.json")) =
    resolve (files w) ["data.json"] ∧
  (∀ text j,
     resolve (files w) ["data.json"] = Some (File text) →
     json_loads text = Some j →
     get_json_file json_loads ".." w = (Ok j, w)).
Proof.
  intros Hgames.
  assert (resolve (files w) (path_parts ("./games/" +:+ ".." +:+ "/data.json")) =
            resolve (files w) ["data.json"]) as Heq.
  { change (path_parts ("./games/" +:+ ".." +:+ "/data.json"))
      with ["games"; ".."; "data.json"].
    rewrite !resolve_trail in *.
    destruct (trail_after [root (files w)] (cwd (files w))) as [trail|] eqn:Ht;
      simpl in *; [|done].
    destruct trail as [|[text|es0|content] up]; try done.
    destruct (entry "games" es0) as [g|]; [|done].
    simplify_eq/=. done. }
  split; [done|]. intros text j Hfile Hj.
  change (path_parts ("./games/" +:+ ".." +:+ "/data.json"))
    with ["games"; ".."; "data.json"] in Heq.
  unfold get_json_file, bind, path_exists, open_read, lift, loads.
  change (path_parts ("./games/" +:+ ".." +:+ "/data.json"))
    with ["games"; ".."; "data.json"].
  rewrite stat_short_component by (unfold NAME_MAX; simpl; lia).
  rewrite Heq, Hfile, bool_decide_eq_true_2 by eauto. simpl.
  rewrite Heq, Hfile. simpl. by rewrite Hj.
Qed.

Lemma X16_dotdot_leaves_games_witness :
  get_json_file Sample.loads_sample ".." MoreFiles.w_bad =
    (Ok (JObj [("motd", JStr "hello")]), MoreFiles.w_bad).
Proof.
  refine (proj2 (X16_dotdot_leaves_games Sample.loads_sample MoreFiles.w_bad _ _)
            "top" _ _ _); reflexivity.
Defined.

(** X17.  The two catalogue endpoints agree on the files: for a
    [dir_name] that is one path component other than [..], the file that
    GET /games/{dir_name} opens is among the files that GET /games/ reads. *)
Theorem X17_served_file_is_listed w dir_name x :
  component dir_name = true →
  dir_name ≠ ".." →
  resolve (files w) (path_parts ("./games/" +:+ dir_name +:+ "/data.json")) =
    Some x →
  x ∈ games_files w.
Proof.
  intros Hc Hne. rewrite (path_parts_component dir_name Hc).
  unfold games_files. rewrite !resolve_trail.
  destruct (trail_after [root (files w)] (cwd (files w))) as [trail|] eqn:Ht;
    simpl; [|done].
  destruct trail as [|[text|es0|content] up]; try done.
  destruct (entry "games" es0) as [g|]; simpl; [|done].
  destruct g as [text|es|content]; [done| |done].
  destruct (String.eqb_spec dir_name "..") as [|_]; [done|].
  destruct (entry dir_name es) as [c|] eqn:Hentry; [|done].
  destruct c as [text|sub|content]; [done| |done]. simpl.
  destruct (entry "data.json" sub) as [y|] eqn:Hy; [|done].
  intros [= ->].
  apply (rglob_complete "data.json" (Dir es) [dir_name] x).
  simpl. by rewrite Hentry, Hy.
Qed.

Lemma X17_served_file_is_listed_witness :
  File "alpha" ∈ games_files Sample.w0.
Proof.
  apply (X17_served_file_is_listed Sample.w0 "alpha" (File "alpha"));
    [reflexivity|discriminate|reflexivity].
Defined.

(** *** The merge and the order of the files *)

Lemma definers_nil k objs :
  definers k objs = [] → Forall (λ o, dict_get k o = None) objs.
Proof.
  unfold definers. intros H. apply Forall_forall. intros o Ho.
  destruct (dict_get k o) as [v|] eqn:Hk; [|done].
  assert (o ∈ filter (λ o, is_Some (dict_get k o)) objs) as Hin.
  { apply list_elem_of_filter. split; [by rewrite Hk|done]. }
  rewrite H in Hin. by apply elem_of_nil in Hin.
Qed.

Lemma definers_singleton k objs o :
  definers k objs = [o] →
  is_Some (dict_get k o) ∧
  ∃ os1 os2, objs = os1 ++ o :: os2 ∧ Forall (λ o', dict_get k o' = None) os2.
Proof.
  unfold definers. induction objs as [|a objs IH]; [done|].
  rewrite filter_cons. destruct (decide (is_Some (dict_get k a))) as [Ha|Ha].
  - intros [= -> Hnil]. split; [done|]. exists [], objs. split; [done|].
    by apply definers_nil.
  - intros H. destruct (IH H) as (Ho & os1 & os2 & -> & Hnone).
    split; [done|]. by exists (a :: os1), os2.
Qed.

(** When at most one file defines [k], the merge reads [k] as that file
    does, or as the seed when there is none. *)
Lemma merge_lookup_definers k objs d :
  Forall dict_wf objs →
  (length (definers k objs) ≤ 1)%nat →
  dict_get k (fold_left dict_update objs d) =
    match definers k objs with
    | o :: _ => dict_get k o
    | [] => dict_get k d
    end.
Proof.
  intros Hwf Hlen. destruct (definers k objs) as [|o [|o' rest]] eqn:Hdef.
  - apply merge_untouched; [done|]. by apply definers_nil.
  - apply definers_singleton in Hdef as ([v Hv] & os1 & os2 & -> & Hnone).
    rewrite Hv. by apply merge_last_wins.
  - simpl in Hlen. lia.
Qed.

(** X18.  The traversal order matters only on a key collision: when no key
    is defined by two of the files, merging the same objects in any other
    order gives a dict that reads the same at every key. *)
Theorem X18_merge_order_irrelevant_without_collision
    (json_loads : string -> option json)
    (update_from_pairs : dict -> json -> result dict)
    json_files json_files' objs objs' combined_data w :
  Forall2 (parses_to json_loads) json_files objs →
  Forall2 (parses_to json_loads) json_files' objs' →
  objs ≡ₚ objs' →
  (∀ k, (length (definers k objs) ≤ 1)%nat) →
  ∃ c c',
    merge_files json_loads update_from_pairs json_files combined_data w = (Ok c, w) ∧
    merge_files json_loads update_from_pairs json_files' combined_data w = (Ok c', w) ∧
    ∀ k, dict_get k c = dict_get k c'.
Proof.
  intros Hobjs Hobjs' Hperm Honce.
  pose proof (parses_to_wf json_loads _ _ Hobjs) as Hwf.
  pose proof (parses_to_wf json_loads _ _ Hobjs') as Hwf'.
  do 2 eexists. split_and!; [by apply merge_files_objects..|].
  intros k.
  assert (definers k objs ≡ₚ definers k objs') as Hdef.
  { unfold definers. by rewrite Hperm. }
  pose proof (Honce k) as Hlen.
  rewrite !merge_lookup_definers; [|done|by rewrite <- Hdef|done..].
  destruct (definers k objs) as [|o [|o' rest]].
  - apply Permutation_nil_l in Hdef. by rewrite <- Hdef.
  - apply Permutation_singleton_l in Hdef. by rewrite <- Hdef.
  - simpl in Hlen. lia.
Qed.

Lemma X18_merge_order_irrelevant_without_collision_witness :
  ∃ c c',
    merge_files Sample.loads_sample Sample.no_pairs [File "alpha"; File "top"]
      [("__comment__", JStr "Combined data")] Sample.w0 = (Ok c, Sample.w0) ∧
    merge_files Sample.loads_sample Sample.no_pairs [File "top"; File "alpha"]
      [("__comment__", JStr "Combined data")] Sample.w0 = (Ok c', Sample.w0) ∧
    ∀ k, dict_get k c = dict_get k c'.
Proof.
  apply (X18_merge_order_irrelevant_without_collision
           Sample.loads_sample Sample.no_pairs
           [File "alpha"; File "top"] [File "top"; File "alpha"]
           [[("title", JStr "Alpha"); ("players", JInt 2)]; [("motd", JStr "hello")]]
           [[("motd", JStr "hello")]; [("title", JStr "Alpha"); ("players", JInt 2)]]).
  - repeat constructor; eexists; (split_and!; [reflexivity|reflexivity|]);
      apply (bool_decide_eq_true_1 _); vm_compute; reflexivity.
  - repeat constructor; eexists; (split_and!; [reflexivity|reflexivity|]);
      apply (bool_decide_eq_true_1 _); vm_compute; reflexivity.
  - apply perm_swap.
  - intros k. unfold definers. rewrite !filter_cons, filter_nil.
    destruct (decide _) as [H1|]; [|destruct (decide _); simpl; lia].
    destruct (decide _) as [H2|]; [exfalso|simpl; lia].
    simpl in H1, H2.
    destruct (String.eqb_spec k "motd") as [->|]; [by destruct H1|by destruct H2].
Defined.
